(** * craftmystore payment controllers: shallow embedding and properties

    The development embeds the request handlers of
    [src/controllers/paymentController.js] (PhonePe and Cashfree) and of the
    PayPal variant of the same controller (the second controller file of the
    repository) and states the lifecycle properties of the payment
    reconciliation core about them.

    Modelling conventions.
    - [global.pendingPayments] is a finite map from transaction id to the
      stored payment object; a stored payment object is a finite map from
      property name to JavaScript value.  The map holds the object's own
      properties.  The properties a plain object inherits from
      [Object.prototype] ([Js.inherited_names]) are not part of the model:
      the handlers are embedded for transaction ids other than those names,
      on a server whose [Object.prototype] is as Node made it.
    - A JavaScript string is its UTF-8 bytes; a lone surrogate is the three
      bytes of its code point (ED A0..BF 80..BF).
    - A handler is a program over that map: it reads and writes the map,
      issues observable calls (provider SDK, mail transport, Firestore,
      [console.error]), suspends at every [await] of an external call, and
      either returns a response or throws.
    - The answers of the outside world (provider responses, success or failure
      of the mail transport and of Firestore, the clock reading, the generated
      transaction id) are inputs of the handler; every [new Date()] of one
      invocation gets the same reading.
    - Request fields and provider payload fields are absent or a string; the
      amount is absent or an integral JSON number.  [console.log] lines and
      process configuration are not modelled. *)

From stdpp Require Import base option strings gmap list pretty.
From Stdlib Require Import ZArith Lia Ascii.

(** ** Provider payloads *)

(** One entry of [statusResponse.paymentDetails] (PhonePe). *)
Record PhonePeDetail := {
  detail_state : option string;
  errorCode : option string;
  detailedErrorCode : option string
}.

(** The object returned by [client.getOrderStatus]; an absent
    [paymentDetails] array is the empty list. *)
Record PhonePeStatus := {
  state : option string;
  paymentDetails : list PhonePeDetail
}.

(** The object returned by [client.pay]. *)
Record PhonePePay := {
  redirectUrl : option string;
  orderId : option string;
  expireAt : option string
}.

(** [response.data] of [cashfree.PGCreateOrder]. *)
Record CashfreeOrder := {
  order_id : option string;
  payment_session_id : option string
}.

(** [response.data] of [cashfree.PGFetchOrder]. *)
Record CashfreeFetch := {
  order_status : option string
}.

(** The body of a Cashfree webhook delivery, read through
    [eventData.data?.order?.order_id] and [eventData.data?.order?.order_status]. *)
Record CashfreeEvent := {
  event_order_id : option string;
  event_order_status : option string
}.

(** [captureResponse.data] of the PayPal capture call.  [purchase_units] is
    [None] when the property is absent, and so is [captures]; [amount_value] is
    [amount?.value] of a capture. *)
(** [orderResponse.data] of the PayPal order creation: its [id] and the link
    whose [rel] is [approve], with its [href]; [None] when there is no such
    link. *)
Record PayPalOrder := {
  paypal_id : string;
  approve_link : option (option string)
}.

Record PayPalCaptureEntry := {
  amount_value : option string
}.

Record PayPalPayments := {
  captures : option (list PayPalCaptureEntry)
}.

Record PayPalUnit := {
  payments : option PayPalPayments;
  description : option string
}.

Record PayPalCapture := {
  capture_status : option string;
  given_name : option string;
  surname : option string;
  email_address : option string;
  purchase_units : option (list PayPalUnit)
}.

(** A thrown value: [error.message] and [error.response?.data?.message]. *)
Record JsError := {
  message : string;
  response_message : option string
}.

Inductive Blob :=
| BError (e : JsError)
| BPhonePeStatus (r : PhonePeStatus)
| BPhonePePay (r : PhonePePay)
| BCashfreeOrder (r : CashfreeOrder)
| BCashfreeFetch (r : CashfreeFetch)
| BCashfreeEvent (r : CashfreeEvent)
| BPayPalCapture (r : PayPalCapture)
| BPayPalOrder (r : PayPalOrder).

(** ** JavaScript values *)

Inductive Value :=
| VUndefined
| VNull
| VBool (b : bool)
| VNumber (n : Z)
| VString (s : string)
| VObject (b : Blob).

Module Js.

(** ToBoolean. *)
Definition truthy (v : Value) : bool :=
  match v with
  | VUndefined | VNull => false
  | VBool b => b
  | VNumber n => negb (n =? 0)%Z
  | VString s => negb (String.eqb s "")
  | VObject _ => true
  end.

(** [a || b]. *)
Definition or (a b : Value) : Value := if truthy a then a else b.

(** [v === 'lit'] for a string literal. *)
Definition is_string (v : Value) (lit : string) : bool :=
  match v with
  | VString s => String.eqb s lit
  | _ => false
  end.

(** A field that is absent or a string. *)
Definition field (o : option string) : Value :=
  match o with
  | Some s => VString s
  | None => VUndefined
  end.

(** Template-literal rendering of a value. *)
Definition render (v : Value) : string :=
  match v with
  | VUndefined => "undefined"
  | VNull => "null"
  | VBool true => "true"
  | VBool false => "false"
  | VNumber n => pretty n
  | VString s => s
  | VObject _ => "[object Object]"
  end.

Definition is_digit (c : Ascii.ascii) : bool :=
  let n := Ascii.nat_of_ascii c in (48 <=? n)%nat && (n <=? 57)%nat.

Fixpoint all_digits (s : string) : bool :=
  match s with
  | EmptyString => true
  | String c s' => is_digit c && all_digits s'
  end.

(** [/^\d{10}$/.test(s)]. *)
Definition ten_digits (s : string) : bool :=
  (String.length s =? 10)%nat && all_digits s.

(** [o.key]. *)
Definition prop (o : gmap string Value) (key : string) : Value :=
  default VUndefined (o !! key).

(** An object literal. *)
Definition object (fields : list (string * Value)) : gmap string Value :=
  list_to_map fields.

(** [{...o, k1: v1, ..., kn: vn}]. *)
Definition spread (o : gmap string Value) (fields : list (string * Value))
  : gmap string Value :=
  foldl (λ acc kv, <[kv.1 := kv.2]> acc) o fields.

(** The string holds a lone surrogate. *)
Fixpoint lone_surrogate (s : string) : bool :=
  match s with
  | EmptyString => false
  | String a s' =>
      match s' with
      | String b _ =>
          (Ascii.nat_of_ascii a =? 237)%nat
          && (160 <=? Ascii.nat_of_ascii b)%nat && (Ascii.nat_of_ascii b <=? 191)%nat
      | EmptyString => false
      end
      || lone_surrogate s'
  end.

(** [s.isWellFormed()]: what [encodeURIComponent] accepts. *)
Definition well_formed (s : string) : bool := negb (lone_surrogate s).

(** The names of the properties every plain object inherits from
    [Object.prototype] in Node: for them [o[id]] is truthy whatever [o]
    holds. *)
Definition inherited_names : list string :=
  ["__proto__"; "constructor"; "hasOwnProperty"; "isPrototypeOf"; "propertyIsEnumerable";
   "toLocaleString"; "toString"; "valueOf"; "__defineGetter__"; "__defineSetter__";
   "__lookupGetter__"; "__lookupSetter__"].

Definition inherited (id : string) : bool := bool_decide (id ∈ inherited_names).

End Js.

(** ** Errors, responses, observable calls *)

Definition TypeError (m : string) : JsError :=
  {| message := m; response_message := None |}.

(** What an awaited external call gives back. *)
Inductive Outcome (A : Type) :=
| Resolved (a : A)
| Rejected (e : JsError).
Arguments Resolved {A} a.
Arguments Rejected {A} e.

(** [res.status(code).json(body)]. *)
Record Response := {
  code : nat;
  body : gmap string Value
}.

Definition json (c : nat) (fields : list (string * Value)) : Response :=
  {| code := c; body := Js.object fields |}.

(** The fields [sendAdminNotificationEmail] destructures from its argument
    and renders into the subject and the HTML body. *)
Record MailDetails := {
  mail_customerName : Value;
  mail_customerEmail : Value;
  mail_customerPhone : Value;
  mail_amount : Value;
  mail_ecommPlan : Value;
  mail_hostingPlan : Value;
  mail_merchantTransactionId : Value
}.

(** The document [storePaymentData] writes. *)
Record PaymentDoc := {
  customerInfo_name : Value;
  customerInfo_email : Value;
  customerInfo_phone : Value;
  transactionInfo_id : Value;
  transactionInfo_amount : Value;
  transactionInfo_status : Value;
  transactionInfo_paymentMethod : Value;
  transactionInfo_createdAt : Value;
  transactionInfo_updatedAt : Value;
  planDetails_ecommPlan : Value;
  planDetails_hostingPlan : Value
}.

Inductive Event :=
| ProviderCall (api : string) (arg : string)
| SendMail (details : MailDetails)
| FirestoreSet (docId : Value) (doc : PaymentDoc)
| ConsoleError (label : string).

(** The answers of the outside world during one handler invocation. *)
Record Env := {
  now : string;
  mail : Outcome unit;
  firestore : Outcome unit
}.

(** ** Handler programs *)

Record World := {
  pendingPayments : gmap string (gmap string Value);
  trace : list Event
}.

Inductive Prog (A : Type) : Type :=
| Ret (a : A)
| Throw (e : JsError)
| GetStore (k : gmap string (gmap string Value) → Prog A)
| PutStore (s : gmap string (gmap string Value)) (k : Prog A)
| Emit (ev : Event) (k : Prog A)
| Await (k : Prog A).
Arguments Ret {A} a.
Arguments Throw {A} e.
Arguments GetStore {A} k.
Arguments PutStore {A} s k.
Arguments Emit {A} ev k.
Arguments Await {A} k.

Fixpoint bind {A B} (p : Prog A) (f : A → Prog B) : Prog B :=
  match p with
  | Ret a => f a
  | Throw e => Throw e
  | GetStore k => GetStore (λ s, bind (k s) f)
  | PutStore s k => PutStore s (bind k f)
  | Emit ev k => Emit ev (bind k f)
  | Await k => Await (bind k f)
  end.

(** [try { p } catch (error) { h error }]. *)
Fixpoint try_catch {A} (p : Prog A) (h : JsError → Prog A) : Prog A :=
  match p with
  | Ret a => Ret a
  | Throw e => h e
  | GetStore k => GetStore (λ s, try_catch (k s) h)
  | PutStore s k => PutStore s (try_catch k h)
  | Emit ev k => Emit ev (try_catch k h)
  | Await k => Await (try_catch k h)
  end.

Notation "x <- p ;; q" := (bind p (λ x, q))
  (at level 100, p at next level, right associativity, only parsing).
Notation "p ;;; q" := (bind p (λ _, q))
  (at level 100, right associativity, only parsing).

(** Sequential execution: the handler runs alone, from its first statement
    to its response. *)
Fixpoint exec {A} (p : Prog A) (w : World) : Outcome A * World :=
  match p with
  | Ret a => (Resolved a, w)
  | Throw e => (Rejected e, w)
  | GetStore k => exec (k (pendingPayments w)) w
  | PutStore s k => exec k {| pendingPayments := s; trace := trace w |}
  | Emit ev k => exec k {| pendingPayments := pendingPayments w; trace := trace w ++ [ev] |}
  | Await k => exec k w
  end.

(** One turn of the event loop: the handler runs up to its next [await]. *)
Fixpoint resume {A} (p : Prog A) (w : World) : Prog A * World :=
  match p with
  | Ret a => (Ret a, w)
  | Throw e => (Throw e, w)
  | GetStore k => resume (k (pendingPayments w)) w
  | PutStore s k => resume k {| pendingPayments := s; trace := trace w |}
  | Emit ev k => resume k {| pendingPayments := pendingPayments w; trace := trace w ++ [ev] |}
  | Await k => (k, w)
  end.

Definition finished {A} (p : Prog A) : bool :=
  match p with
  | Ret _ | Throw _ => true
  | _ => false
  end.

(** Two handlers in flight on the one event loop.  The schedule says, turn
    by turn, which of the two runs up to its next [await] ([true] for the
    first); a finished handler has nothing left to run. *)
Fixpoint interleave {A} (schedule : list bool) (p q : Prog A) (w : World)
  : Prog A * Prog A * World :=
  match schedule with
  | [] => (p, q, w)
  | true :: schedule' => interleave schedule' (resume p w).1 q (resume p w).2
  | false :: schedule' => interleave schedule' p (resume q w).1 (resume q w).2
  end.

(** [await call] of an external call whose answer is [o]. *)
Definition await {A} (o : Outcome A) : Prog A :=
  Await (match o with
         | Resolved a => Ret a
         | Rejected e => Throw e
         end).

(** [global.pendingPayments[id]] is truthy, for an [id] that is not one of
    [Js.inherited_names]: [id] is a key of the object. *)
Definition known (st : gmap string (gmap string Value)) (id : string) : bool :=
  match st !! id with
  | Some _ => true
  | None => false
  end.

(** The object [global.pendingPayments[id]] refers to at this point.  A
    handler that holds [paymentInfo = global.pendingPayments[id]] holds a
    reference, so it sees every later assignment to that object. *)
Definition deref (id : string) : Prog (gmap string Value) :=
  GetStore (λ st,
    match st !! id with
    | Some o => Ret o
    | None => Throw (TypeError "Cannot read properties of undefined")
    end).

(** [global.pendingPayments[id].key = v]. *)
Definition assign (id key : string) (v : Value) : Prog unit :=
  GetStore (λ st,
    match st !! id with
    | Some o => PutStore (<[id := <[key := v]> o]> st) (Ret tt)
    | None => Throw (TypeError "Cannot set properties of undefined")
    end).

(** ** Side effects *)

Definition paymentDoc (env : Env) (paymentData : gmap string Value) : PaymentDoc :=
  {| customerInfo_name := Js.or (Js.prop paymentData "customerName") (VString "");
     customerInfo_email := Js.or (Js.prop paymentData "customerEmail") (VString "");
     customerInfo_phone := Js.or (Js.prop paymentData "customerPhone") (VString "");
     transactionInfo_id := Js.or (Js.prop paymentData "merchantTransactionId") (VString "");
     transactionInfo_amount := Js.or (Js.prop paymentData "amount") (VNumber 0);
     transactionInfo_status := Js.or (Js.prop paymentData "status") (VString "UNKNOWN");
     transactionInfo_paymentMethod := Js.or (Js.prop paymentData "paymentMethod") (VString "unknown");
     transactionInfo_createdAt := Js.or (Js.prop paymentData "createdAt") (VString (now env));
     transactionInfo_updatedAt := Js.or (Js.prop paymentData "updatedAt") (VString (now env));
     planDetails_ecommPlan := Js.or (Js.prop paymentData "ecommPlan") (VString "");
     planDetails_hostingPlan := Js.or (Js.prop paymentData "hostingPlan") (VString "") |}.

Definition storePaymentData (env : Env) (paymentData : gmap string Value) : Prog Value :=
  try_catch
    (Emit (FirestoreSet (Js.prop paymentData "merchantTransactionId") (paymentDoc env paymentData))
       (await (firestore env) ;;;
        Ret (Js.prop paymentData "merchantTransactionId")))
    (λ error,
       Emit (ConsoleError "Error storing payment data in Firestore:") (Ret VNull)).

Definition mailDetails (paymentDetails : gmap string Value) : MailDetails :=
  {| mail_customerName := Js.prop paymentDetails "customerName";
     mail_customerEmail := Js.prop paymentDetails "customerEmail";
     mail_customerPhone := Js.prop paymentDetails "customerPhone";
     mail_amount := Js.prop paymentDetails "amount";
     mail_ecommPlan := Js.prop paymentDetails "ecommPlan";
     mail_hostingPlan := Js.prop paymentDetails "hostingPlan";
     mail_merchantTransactionId := Js.prop paymentDetails "merchantTransactionId" |}.

Definition sendAdminNotificationEmail (env : Env) (paymentDetails : gmap string Value)
  : Prog bool :=
  try_catch
    (Emit (SendMail (mailDetails paymentDetails))
       (await (mail env) ;;;
        Ret true))
    (λ error,
       Emit (ConsoleError "Error sending admin notification email:") (Ret false)).

(** The block the success branches share: notify the admin, then archive
    the payment, each inside its own [try]/[catch].  [paymentInfo] is the
    stored object of [id], read when each call is made. *)
Definition notifyAndArchive (env : Env) (id method mailLabel archiveLabel : string)
  : Prog unit :=
  try_catch
    (paymentInfo <- deref id ;;
     sendAdminNotificationEmail env paymentInfo ;;;
     Ret tt)
    (λ emailError, Emit (ConsoleError mailLabel) (Ret tt)) ;;;
  try_catch
    (paymentInfo <- deref id ;;
     storePaymentData env
       (Js.spread paymentInfo
          [("paymentMethod", VString method);
           ("status", VString "COMPLETED");
           ("updatedAt", VString (now env))]) ;;;
     Ret tt)
    (λ firestoreError, Emit (ConsoleError archiveLabel) (Ret tt)).

(** ** Requests *)

(** [req.body] of an initiation request. *)
Record InitiationBody := {
  amount : option Z;
  ecommPlan : option string;
  hostingPlan : option string;
  customerName : option string;
  customerEmail : option string;
  customerPhone : option string
}.

(** [req.query] of the PhonePe callback. *)
Record CallbackQuery := {
  query_merchantTransactionId : option string;
  query_status : option string
}.

(** The amount as a JavaScript value. *)
Definition number (a : option Z) : Value :=
  match a with
  | Some n => VNumber n
  | None => VUndefined
  end.

(** [isNaN(amount) || amount <= 0]. *)
Definition invalidAmount (a : option Z) : bool :=
  match a with
  | Some n => (n <=? 0)%Z
  | None => true
  end.

(** The payment object both initiation handlers store. *)
Definition newPaymentInfo (env : Env) (merchantTransactionId : string) (req : InitiationBody)
  : gmap string Value :=
  Js.object
    [("merchantTransactionId", VString merchantTransactionId);
     ("amount", number (amount req));
     ("customerName", Js.field (customerName req));
     ("customerEmail", Js.field (customerEmail req));
     ("customerPhone", Js.field (customerPhone req));
     ("ecommPlan", Js.field (ecommPlan req));
     ("hostingPlan", Js.field (hostingPlan req));
     ("status", VString "PENDING");
     ("createdAt", VString (now env))].

(** [global.pendingPayments[id] = o]. *)
Definition store (id : string) (o : gmap string Value) : Prog unit :=
  GetStore (λ st, PutStore (<[id := o]> st) (Ret tt)).

(** An awaited call of a provider SDK. *)
Definition call {A} (api arg : string) (answer : Outcome A) : Prog A :=
  Emit (ProviderCall api arg) (await answer).

Definition URIError (m : string) : JsError :=
  {| message := m; response_message := None |}.

(** [encodeURIComponent(v)] as the handlers use it, inside a URL that the
    model does not keep: it throws when the text holds a lone surrogate. *)
Definition encodeURIComponent (v : Value) : Prog unit :=
  if Js.well_formed (Js.render v) then Ret tt else Throw (URIError "URI malformed").

(** ** [src/controllers/paymentController.js] *)

Module PaymentController.

(** [initiatePhonePePayment]: [merchantTransactionId] is the generated
    id, [pay] the answer of [client.pay]. *)
Definition initiatePhonePePayment (env : Env) (merchantTransactionId : string)
    (pay : Outcome (option PhonePePay)) (req : InitiationBody) : Prog Response :=
  try_catch
    (if negb (Js.truthy (number (amount req)))
        || negb (Js.truthy (Js.field (customerPhone req)))
        || negb (Js.truthy (Js.field (customerEmail req)))
        || negb (Js.truthy (Js.field (customerName req)))
     then
       Ret (json 400
              [("success", VBool false);
               ("message", VString "Missing required fields: amount, customerPhone, customerEmail, customerName")])
     else if negb (Js.ten_digits (default "" (customerPhone req))) then
       Ret (json 400
              [("success", VBool false);
               ("message", VString "Phone number must be exactly 10 digits")])
     else if invalidAmount (amount req) then
       Ret (json 400
              [("success", VBool false);
               ("message", VString "Invalid amount")])
     else
       store merchantTransactionId (newPaymentInfo env merchantTransactionId req) ;;;
       encodeURIComponent (Js.field (customerName req)) ;;;
       response <- call "phonepe.pay" merchantTransactionId pay ;;
       match response with
       | Some r =>
           if Js.truthy (Js.field (redirectUrl r)) then
             assign merchantTransactionId "phonepeOrderId" (Js.field (orderId r)) ;;;
             assign merchantTransactionId "redirectUrl" (Js.field (redirectUrl r)) ;;;
             assign merchantTransactionId "status" (VString "INITIATED") ;;;
             assign merchantTransactionId "expireAt" (Js.field (expireAt r)) ;;;
             Ret (json 200
                    [("success", VBool true);
                     ("redirectUrl", Js.field (redirectUrl r));
                     ("merchantTransactionId", VString merchantTransactionId);
                     ("orderId", Js.field (orderId r));
                     ("message", VString "Payment initiated successfully")])
           else
             Emit (ConsoleError "PhonePe SDK Error: Missing redirect URL")
               (Ret (json 400
                       [("success", VBool false);
                        ("message", VString "Payment initiation failed - missing redirect URL");
                        ("error", VObject (BPhonePePay r))]))
       | None =>
           Emit (ConsoleError "PhonePe SDK Error: Missing redirect URL")
             (Ret (json 400
                     [("success", VBool false);
                      ("message", VString "Payment initiation failed - missing redirect URL");
                      ("error", VNull)]))
       end)
    (λ error,
       Emit (ConsoleError "PhonePe Payment Error:")
         (Ret (json 500
                 [("success", VBool false);
                  ("message", Js.or (VString (message error)) (VString "Payment initiation failed"));
                  ("error", VObject (BError error))]))).

(** [phonePeCallback]. *)
Definition phonePeCallback (env : Env) (query : CallbackQuery) : Prog Response :=
  try_catch
    (GetStore (λ st,
       match query_merchantTransactionId query with
       | Some merchantTransactionId =>
           if Js.truthy (VString merchantTransactionId) && known st merchantTransactionId then
             assign merchantTransactionId "status"
               (Js.or (Js.field (query_status query)) (VString "COMPLETED")) ;;;
             assign merchantTransactionId "updatedAt" (VString (now env))
           else Ret tt
       | None => Ret tt
       end) ;;;
     Ret (json 200
            [("success", VBool true);
             ("message", VString "Callback processed")]))
    (λ error,
       Emit (ConsoleError "PhonePe Callback Error:")
         (Ret (json 500
                 [("success", VBool false);
                  ("message", VString "Callback failed")]))).

(** The error text of the FAILED branch of [verifyPhonePePayment]. *)
Definition errorInfo (r : PhonePeStatus) : string :=
  match paymentDetails r with
  | paymentDetail :: _ =>
      "Error: " +:+ Js.render (Js.or (Js.field (errorCode paymentDetail)) (VString "Unknown"))
      +:+ " - " +:+ Js.render (Js.or (Js.field (detailedErrorCode paymentDetail)) (VString ""))
  | [] => "No detailed error information available"
  end.

(** [verifyPhonePePayment]: [getOrderStatus] is the answer of
    [client.getOrderStatus]; [None] is a null answer. *)
Definition verifyPhonePePayment (env : Env) (getOrderStatus : Outcome (option PhonePeStatus))
    (merchantTransactionId : string) : Prog Response :=
  try_catch
    (if negb (Js.truthy (VString merchantTransactionId)) then
       Ret (json 400
              [("success", VBool false);
               ("message", VString "Missing transaction ID")])
     else
       GetStore (λ st,
         if negb (known st merchantTransactionId) then
           Ret (json 404
                  [("success", VBool false);
                   ("message", VString "Transaction not found")])
         else
           statusResponse <- call "phonepe.getOrderStatus" merchantTransactionId getOrderStatus ;;
           let data :=
             match statusResponse with
             | Some r => VObject (BPhonePeStatus r)
             | None => VNull
             end in
           let state_ :=
             match statusResponse with
             | Some r => Js.field (state r)
             | None => VUndefined
             end in
           assign merchantTransactionId "status" (Js.or state_ (VString "UNKNOWN")) ;;;
           assign merchantTransactionId "verifiedAt" (VString (now env)) ;;;
           assign merchantTransactionId "paymentDetails" data ;;;
           if Js.truthy data && Js.is_string state_ "COMPLETED" then
             notifyAndArchive env merchantTransactionId "phonepe"
               "Failed to send admin notification email:"
               "Failed to store PhonePe payment data in Firestore:" ;;;
             Ret (json 200
                    [("success", VBool true);
                     ("status", VString "SUCCESS");
                     ("message", VString "Payment successful");
                     ("data", data)])
           else if Js.truthy data && Js.is_string state_ "PENDING" then
             Ret (json 200
                    [("success", VBool false);
                     ("status", VString "PENDING");
                     ("message", VString "Payment is still processing");
                     ("data", data)])
           else
             match statusResponse with
             | Some r =>
                 Ret (json 200
                        [("success", VBool false);
                         ("status", VString "FAILED");
                         ("message", VString ("Payment failed or was cancelled. " +:+ errorInfo r));
                         ("data", data)])
             | None =>
                 Throw (TypeError "Cannot read properties of null (reading 'paymentDetails')")
             end))
    (λ error,
       Emit (ConsoleError "PhonePe Verification Error:")
         (Ret (json 500
                 [("success", VBool false);
                  ("status", VString "FAILED");
                  ("message", VString ("Verification failed due to a server error: " +:+ message error))]))).

(** [initiateCashfreePayment]: [createOrder] is [response.data] of
    [cashfree.PGCreateOrder]. *)
Definition initiateCashfreePayment (env : Env) (merchantTransactionId : string)
    (createOrder : Outcome (option CashfreeOrder)) (req : InitiationBody) : Prog Response :=
  try_catch
    (if negb (Js.truthy (number (amount req)))
        || negb (Js.truthy (Js.field (customerEmail req)))
        || negb (Js.truthy (Js.field (customerName req)))
     then
       Ret (json 400
              [("success", VBool false);
               ("message", VString "Missing required fields")])
     else
       encodeURIComponent (Js.field (customerName req)) ;;;
       store merchantTransactionId (newPaymentInfo env merchantTransactionId req) ;;;
       data <- call "cashfree.PGCreateOrder" merchantTransactionId createOrder ;;
       match data with
       | Some r =>
           if Js.truthy (Js.field (payment_session_id r)) then
             assign merchantTransactionId "cashfreeOrderId" (Js.field (order_id r)) ;;;
             assign merchantTransactionId "paymentSessionId" (Js.field (payment_session_id r)) ;;;
             assign merchantTransactionId "status" (VString "INITIATED") ;;;
             Ret (json 200
                    [("success", VBool true);
                     ("orderId", Js.field (order_id r));
                     ("paymentSessionId", Js.field (payment_session_id r));
                     ("merchantTransactionId", VString merchantTransactionId)])
           else
             Emit (ConsoleError "Cashfree Error: Missing payment session ID")
               (Ret (json 400
                       [("success", VBool false);
                        ("message", VString "Payment initiation failed");
                        ("error", VObject (BCashfreeOrder r))]))
       | None =>
           Emit (ConsoleError "Cashfree Error: Missing payment session ID")
             (Ret (json 400
                     [("success", VBool false);
                      ("message", VString "Payment initiation failed");
                      ("error", VUndefined)]))
       end)
    (λ error,
       Emit (ConsoleError "Cashfree Payment Error:")
         (Ret (json 500
                 [("success", VBool false);
                  ("message",
                   VString ("Payment initiation failed: "
                            +:+ Js.render (Js.or (Js.field (response_message error))
                                                 (VString (message error)))))]))).

(** [verifyCashfreePayment]: [fetchOrder] is [response.data] of
    [cashfree.PGFetchOrder]. *)
Definition verifyCashfreePayment (env : Env) (fetchOrder : Outcome (option CashfreeFetch))
    (merchantTransactionId : string) : Prog Response :=
  try_catch
    (if negb (Js.truthy (VString merchantTransactionId)) then
       Ret (json 400
              [("success", VBool false);
               ("message", VString "Missing transaction ID")])
     else
       GetStore (λ st,
         if negb (known st merchantTransactionId) then
           Ret (json 404
                  [("success", VBool false);
                   ("message", VString "Transaction not found")])
         else
           response_data <- call "cashfree.PGFetchOrder" merchantTransactionId fetchOrder ;;
           match response_data with
           | None =>
               Throw (TypeError "Cannot read properties of undefined (reading 'order_status')")
           | Some r =>
               let data := VObject (BCashfreeFetch r) in
               let orderStatus := Js.field (order_status r) in
               assign merchantTransactionId "status" orderStatus ;;;
               assign merchantTransactionId "verifiedAt" (VString (now env)) ;;;
               assign merchantTransactionId "paymentDetails" data ;;;
               if Js.is_string orderStatus "PAID" then
                 notifyAndArchive env merchantTransactionId "cashfree"
                   "Failed to send admin notification email:"
                   "Failed to store Cashfree payment data in Firestore:" ;;;
                 Ret (json 200
                        [("success", VBool true);
                         ("status", VString "SUCCESS");
                         ("message", VString "Payment successful");
                         ("data", data)])
               else if Js.is_string orderStatus "ACTIVE" then
                 Ret (json 200
                        [("success", VBool false);
                         ("status", VString "PENDING");
                         ("message", VString "Payment is still processing");
                         ("data", data)])
               else
                 Ret (json 200
                        [("success", VBool false);
                         ("status", VString "FAILED");
                         ("message",
                          VString ("Payment failed or was cancelled. Status: "
                                   +:+ Js.render orderStatus));
                         ("data", data)])
           end))
    (λ error,
       Emit (ConsoleError "Cashfree Verification Error:")
         (Ret (json 500
                 [("success", VBool false);
                  ("status", VString "FAILED");
                  ("message",
                   VString ("Verification failed due to a server error: "
                            +:+ Js.render (Js.or (Js.field (response_message error))
                                                 (VString (message error)))))]))).

(** [cashfreeWebhook]: [eventData] is [req.body]; [None] is an absent
    body. *)
Definition cashfreeWebhook (env : Env) (eventData : option CashfreeEvent) : Prog Response :=
  try_catch
    (match eventData with
     | None => Throw (TypeError "Cannot read properties of undefined (reading 'data')")
     | Some ev =>
         let orderStatus := Js.field (event_order_status ev) in
         GetStore (λ st,
           match event_order_id ev with
           | Some orderId =>
               if Js.truthy (VString orderId) && known st orderId then
                 assign orderId "status"
                   (if Js.is_string orderStatus "PAID" then VString "COMPLETED" else orderStatus) ;;;
                 assign orderId "updatedAt" (VString (now env)) ;;;
                 assign orderId "webhookData" (VObject (BCashfreeEvent ev)) ;;;
                 if Js.is_string orderStatus "PAID" then
                   notifyAndArchive env orderId "cashfree"
                     "Failed to send admin notification email from webhook:"
                     "Failed to store Cashfree payment data in Firestore from webhook:"
                 else Ret tt
               else Ret tt
           | None => Ret tt
           end) ;;;
         Ret (json 200
                [("success", VBool true);
                 ("message", VString "Webhook processed")])
     end)
    (λ error,
       Emit (ConsoleError "Cashfree Webhook Error:")
         (Ret (json 500
                 [("success", VBool false);
                  ("message", VString "Webhook failed")]))).

End PaymentController.

(** ** The PayPal variant of the controller *)

Module PayPalController.

(** [s.includes(sub)]. *)
Fixpoint includes (s sub : string) : bool :=
  String.prefix sub s
  || match s with
     | EmptyString => false
     | String _ s' => includes s' sub
     end.

Definition is_dash (c : Ascii.ascii) : bool := Ascii.eqb c "-"%char.

Fixpoint after_dash (s : string) : option string :=
  match s with
  | EmptyString => None
  | String c s' => if is_dash c then Some s' else after_dash s'
  end.

Fixpoint until_dash (s : string) : string :=
  match s with
  | EmptyString => EmptyString
  | String c s' => if is_dash c then EmptyString else String c (until_dash s')
  end.

(** [s.split('-')[1]]. *)
Definition second_segment (s : string) : option string :=
  until_dash <$> after_dash s.

(** The number of bytes of the white space or line terminator [s] starts
    with, 0 when it starts with none: the ASCII ones (9 to 13 and 32),
    U+00A0, U+1680, U+2000 to U+200A, U+2028, U+2029, U+202F, U+205F,
    U+3000 and U+FEFF. *)
Definition space_prefix (s : string) : nat :=
  match s with
  | EmptyString => 0
  | String a s1 =>
      let a := Ascii.nat_of_ascii a in
      if (a =? 32)%nat || ((9 <=? a)%nat && (a <=? 13)%nat) then 1
      else
        match s1 with
        | EmptyString => 0
        | String b s2 =>
            let b := Ascii.nat_of_ascii b in
            if (a =? 194)%nat && (b =? 160)%nat then 2
            else
              match s2 with
              | EmptyString => 0
              | String c _ =>
                  let c := Ascii.nat_of_ascii c in
                  if ((a =? 225)%nat && (b =? 154)%nat && (c =? 128)%nat)
                     || ((a =? 226)%nat && (b =? 128)%nat
                         && (((128 <=? c)%nat && (c <=? 138)%nat)
                             || (c =? 168)%nat || (c =? 169)%nat || (c =? 175)%nat))
                     || ((a =? 226)%nat && (b =? 129)%nat && (c =? 159)%nat)
                     || ((a =? 227)%nat && (b =? 128)%nat && (c =? 128)%nat)
                     || ((a =? 239)%nat && (b =? 187)%nat && (c =? 191)%nat)
                  then 3
                  else 0
              end
        end
  end.

(** [s] without its first [skip] bytes and the white space after them. *)
Fixpoint trim_start_from (skip : nat) (s : string) : string :=
  match s with
  | EmptyString => EmptyString
  | String _ s' =>
      match skip with
      | S skip' => trim_start_from skip' s'
      | 0 =>
          match space_prefix s with
          | S skip' => trim_start_from skip' s'
          | 0 => s
          end
      end
  end.

(** [s.trimStart()]. *)
Definition trim_start (s : string) : string := trim_start_from 0 s.

(** [s] is white space only. *)
Definition blank (s : string) : bool := String.eqb (trim_start s) "".

(** [s.trimEnd()]. *)
Fixpoint trim_end (s : string) : string :=
  match s with
  | EmptyString => EmptyString
  | String a s' => if blank s then EmptyString else String a (trim_end s')
  end.

(** [s.trim()]. *)
Definition trim (s : string) : string := trim_end (trim_start s).

(** [purchase_units[0]?.payments?.captures[0]?.amount?.value]; the outer
    [None] is the [TypeError] of indexing an absent [captures]. *)
Definition first_capture_value (unit0 : option PayPalUnit) : option Value :=
  match unit0 with
  | None => Some VUndefined
  | Some u =>
      match payments u with
      | None => Some VUndefined
      | Some p =>
          match captures p with
          | None => None
          | Some [] => Some VUndefined
          | Some (c :: _) => Some (Js.field (amount_value c))
          end
      end
  end.

(** The [ecommPlan] of a payment object made from the capture. *)
Definition plan_of_description (unit0 : option PayPalUnit) : Value :=
  match unit0 ≫= description with
  | Some d =>
      if includes d "CraftMyStore"
      then Js.field (trim <$> second_segment d)
      else VString "Standard"
  | None => VString "Standard"
  end.

(** The payment object [capturePayPalPayment] makes from the capture
    response when [orderID] is not in [global.pendingPayments]. *)
Definition paymentInfoFromCapture (orderID : string) (captureData : option PayPalCapture)
  : Prog (gmap string Value) :=
  match captureData with
  | None => Throw (TypeError "Cannot read properties of undefined (reading 'payer')")
  | Some d =>
      match purchase_units d with
      | None => Throw (TypeError "Cannot read properties of undefined (reading '0')")
      | Some units =>
          match first_capture_value (head units) with
          | None => Throw (TypeError "Cannot read properties of undefined (reading '0')")
          | Some value =>
              Ret (Js.object
                     [("merchantTransactionId", VString orderID);
                      ("customerName",
                       Js.or (VString (Js.render (Js.field (given_name d)) +:+ " "
                                       +:+ Js.render (Js.field (surname d))))
                             (VString "PayPal Customer"));
                      ("customerEmail",
                       Js.or (Js.field (email_address d)) (VString "No email provided"));
                      ("customerPhone", VString "Not provided via PayPal");
                      ("amount", Js.or value (VString "0"));
                      ("ecommPlan", plan_of_description (head units));
                      ("hostingPlan", VString "Standard")])
          end
      end
  end.

(** [initiatePayPalPayment]: [token] is the answer of the OAuth token
    request, [createOrder] is [orderResponse.data] of the order creation. *)
Definition initiatePayPalPayment (env : Env) (token : Outcome unit)
    (createOrder : Outcome PayPalOrder) (req : InitiationBody) : Prog Response :=
  try_catch
    (if negb (Js.truthy (number (amount req)))
        || negb (Js.truthy (Js.field (customerEmail req)))
        || negb (Js.truthy (Js.field (customerName req)))
     then
       Ret (json 400
              [("success", VBool false);
               ("message", VString "Missing required fields")])
     else
       call "paypal.token" "" token ;;;
       order <- call "paypal.createOrder" "" createOrder ;;
       match approve_link order with
       | None => Throw (TypeError "Cannot read properties of undefined (reading 'href')")
       | Some approvalUrl =>
           let merchantTransactionId := paypal_id order in
           store merchantTransactionId (newPaymentInfo env merchantTransactionId req) ;;;
           Ret (json 200
                  [("success", VBool true);
                   ("orderId", VString (paypal_id order));
                   ("redirectUrl", Js.field approvalUrl)])
       end)
    (λ error,
       Emit (ConsoleError "PayPal Error:")
         (Ret (json 500
                 [("success", VBool false);
                  ("message",
                   VString ("PayPal payment failed: "
                            +:+ Js.render (Js.or (Js.field (response_message error))
                                                 (VString (message error)))))]))).

(** [capturePayPalPayment]: [token] is the answer of the OAuth token
    request, [capture] is [captureResponse.data] of the capture request. *)
Definition capturePayPalPayment (env : Env) (token : Outcome unit)
    (capture : Outcome (option PayPalCapture)) (orderID : option string) : Prog Response :=
  try_catch
    (match orderID with
     | None =>
         Ret (json 400
                [("success", VBool false);
                 ("message", VString "Missing order ID")])
     | Some orderID =>
         if negb (Js.truthy (VString orderID)) then
           Ret (json 400
                  [("success", VBool false);
                   ("message", VString "Missing order ID")])
         else
           call "paypal.token" "" token ;;;
           captureData <- call "paypal.capture" orderID capture ;;
           let data :=
             match captureData with
             | Some d => VObject (BPayPalCapture d)
             | None => VUndefined
             end in
           GetStore (λ st,
             paymentInfo <- match st !! orderID with
                            | Some o => Ret o
                            | None => paymentInfoFromCapture orderID captureData
                            end ;;
             store orderID
               (<["updatedAt" := VString (now env)]>
                  (<["paypalCaptureData" := data]>
                     (<["status" := VString "COMPLETED"]> paymentInfo)))) ;;;
           notifyAndArchive env orderID "paypal"
             "Failed to send admin notification email for PayPal payment:"
             "Failed to store PayPal payment data in Firestore:" ;;;
           Ret (json 200
                  [("success", VBool true);
                   ("data", data)])
     end)
    (λ error,
       Emit (ConsoleError "PayPal Capture Error:")
         (Ret (json 500
                 [("success", VBool false);
                  ("message",
                   VString ("Capture failed: "
                            +:+ Js.render (Js.or (Js.field (response_message error))
                                                 (VString (message error)))))]))).

End PayPalController.

(** ** Status signals *)

(** A status signal of [paymentController.js] together with the answers of
    the outside world while it is handled. *)
Inductive Signal :=
| PhonePePoll (env : Env) (merchantTransactionId : string)
    (getOrderStatus : Outcome (option PhonePeStatus))
| PhonePeCallback (env : Env) (query : CallbackQuery)
| CashfreePoll (env : Env) (merchantTransactionId : string)
    (fetchOrder : Outcome (option CashfreeFetch))
| CashfreeWebhook (env : Env) (eventData : option CashfreeEvent).

Definition handler (s : Signal) : Prog Response :=
  match s with
  | PhonePePoll env id answer => PaymentController.verifyPhonePePayment env answer id
  | PhonePeCallback env query => PaymentController.phonePeCallback env query
  | CashfreePoll env id answer => PaymentController.verifyCashfreePayment env answer id
  | CashfreeWebhook env eventData => PaymentController.cashfreeWebhook env eventData
  end.

(** The transaction id a signal refers to. *)
Definition target (s : Signal) : option string :=
  match s with
  | PhonePePoll _ id _ => Some id
  | PhonePeCallback _ query => query_merchantTransactionId query
  | CashfreePoll _ id _ => Some id
  | CashfreeWebhook _ eventData => eventData ≫= event_order_id
  end.

(** The provider status a signal carries is the provider's success value:
    PhonePe order state [COMPLETED] on a poll, Cashfree [order_status]
    [PAID] on a poll or a webhook. *)
Definition success_signal (s : Signal) : bool :=
  match s with
  | PhonePePoll _ _ (Resolved (Some r)) => Js.is_string (Js.field (state r)) "COMPLETED"
  | CashfreePoll _ _ (Resolved (Some r)) => Js.is_string (Js.field (order_status r)) "PAID"
  | CashfreeWebhook _ (Some ev) => Js.is_string (Js.field (event_order_status ev)) "PAID"
  | _ => false
  end.

(** A signal is handled to completion before the next one is. *)
Definition deliver (w : World) (s : Signal) : World := (exec (handler s) w).2.

Definition deliver_all (w : World) (signals : list Signal) : World :=
  foldl deliver w signals.

(** Calls of the mail transport and of Firestore in a trace. *)
Definition is_notify (ev : Event) : bool :=
  match ev with
  | SendMail _ => true
  | _ => false
  end.

Definition is_archive (ev : Event) : bool :=
  match ev with
  | FirestoreSet _ _ => true
  | _ => false
  end.

Definition is_provider_call (ev : Event) : bool :=
  match ev with
  | ProviderCall _ _ => true
  | _ => false
  end.

Definition notifications (t : list Event) : nat := length (List.filter is_notify t).
Definition archives (t : list Event) : nat := length (List.filter is_archive t).
Definition provider_calls (t : list Event) : nat := length (List.filter is_provider_call t).

(** What is left of a handler dispatches [n] more notifications and [a] more
    archive writes, whatever the other handlers do to the payment objects in
    between, as long as [id] stays in [global.pendingPayments]. *)
Inductive Dispatches (id : string) : nat → nat → Prog Response → Prop :=
| Dispatches_done p :
    finished p = true →
    Dispatches id 0 0 p
| Dispatches_turn p dn da n a :
    finished p = false →
    (∀ w, known (pendingPayments w) id = true →
          known (pendingPayments (resume p w).2) id = true
          ∧ notifications (trace (resume p w).2) = notifications (trace w) + dn
          ∧ archives (trace (resume p w).2) = archives (trace w) + da) →
    (∀ w, known (pendingPayments w) id = true →
          Dispatches id n a (resume p w).1) →
    Dispatches id (dn + n) (da + a) p.


(** A signal that makes its handler dispatch: it carries the provider's
    success value and names a transaction of [global.pendingPayments]. *)
Definition fires (st : gmap string (gmap string Value)) (s : Signal) : bool :=
  success_signal s
  && match target s with
     | Some id => Js.truthy (VString id) && known st id
     | None => false
     end.

(** The status a signal writes into the payment object it names, when its
    handler gets as far as the write: the raw provider status, with the
    handler's own default. *)
Definition recorded_status (s : Signal) : option Value :=
  match s with
  | PhonePePoll _ _ (Resolved (Some r)) => Some (Js.or (Js.field (state r)) (VString "UNKNOWN"))
  | PhonePePoll _ _ (Resolved None) => Some (VString "UNKNOWN")
  | PhonePePoll _ _ (Rejected _) => None
  | PhonePeCallback _ query => Some (Js.or (Js.field (query_status query)) (VString "COMPLETED"))
  | CashfreePoll _ _ (Resolved (Some r)) => Some (Js.field (order_status r))
  | CashfreePoll _ _ _ => None
  | CashfreeWebhook _ (Some ev) =>
      Some (if Js.is_string (Js.field (event_order_status ev)) "PAID"
            then VString "COMPLETED"
            else Js.field (event_order_status ev))
  | CashfreeWebhook _ None => None
  end.

(** The [status] property of the payment object stored under [id]. *)
Definition stored_status (w : World) (id : string) : option Value :=
  pendingPayments w !! id ≫= (.!! "status").

(** The response a handler gives when run alone, and one field of it. *)
Definition answer (p : Prog Response) (w : World) : option Response :=
  match (exec p w).1 with
  | Resolved r => Some r
  | Rejected _ => None
  end.

Definition answer_field (p : Prog Response) (w : World) (key : string) : option Value :=
  answer p w ≫= (λ r, body r !! key).

(** A property of the payment object stored under [id]. *)
Definition stored_prop (w : World) (id key : string) : option Value :=
  pendingPayments w !! id ≫= (.!! key).



(** What the handler of [paymentController.js] answers to a signal that
    names an id absent from [global.pendingPayments]. *)
Definition unknown_transaction_response (s : Signal) : Response :=
  match s with
  | PhonePePoll _ id _ | CashfreePoll _ id _ =>
      if String.eqb id ""
      then json 400 [("success", VBool false); ("message", VString "Missing transaction ID")]
      else json 404 [("success", VBool false); ("message", VString "Transaction not found")]
  | PhonePeCallback _ _ =>
      json 200 [("success", VBool true); ("message", VString "Callback processed")]
  | CashfreeWebhook _ _ =>
      json 200 [("success", VBool true); ("message", VString "Webhook processed")]
  end.


(** The same signal with other answers of the mail transport and of
    Firestore. *)
Definition set_effects (m f : Outcome unit) (env : Env) : Env :=
  {| now := now env; mail := m; firestore := f |}.

Definition with_effects (m f : Outcome unit) (s : Signal) : Signal :=
  match s with
  | PhonePePoll env id answer => PhonePePoll (set_effects m f env) id answer
  | PhonePeCallback env query => PhonePeCallback (set_effects m f env) query
  | CashfreePoll env id answer => CashfreePoll (set_effects m f env) id answer
  | CashfreeWebhook env eventData => CashfreeWebhook (set_effects m f env) eventData
  end.

Definition is_poll (s : Signal) : bool :=
  match s with
  | PhonePePoll _ _ _ | CashfreePoll _ _ _ => true
  | _ => false
  end.

(** ** The translation table of the specification *)

Inductive UnifiedState :=
| SUCCESS
| PENDING_VERIFICATION
| FAILED.

Module Spec.

(** Section 4.2, PhonePe rows: COMPLETED is SUCCESS, PENDING is
    PENDING_VERIFICATION, anything else or absent is FAILED. *)
Definition translate_phonepe (state : option string) : UnifiedState :=
  match state with
  | Some s =>
      if String.eqb s "COMPLETED" then SUCCESS
      else if String.eqb s "PENDING" then PENDING_VERIFICATION
      else FAILED
  | None => FAILED
  end.

(** Section 4.2, Cashfree rows: PAID is SUCCESS, ACTIVE is
    PENDING_VERIFICATION, anything else is FAILED. *)
Definition translate_cashfree (order_status : option string) : UnifiedState :=
  match order_status with
  | Some s =>
      if String.eqb s "PAID" then SUCCESS
      else if String.eqb s "ACTIVE" then PENDING_VERIFICATION
      else FAILED
  | None => FAILED
  end.

(** Section 4.2, PayPal row as the claim reads it: a capture response is
    SUCCESS only when its [status] is COMPLETED. *)
Definition paypal_success (status : option string) : bool :=
  match status with
  | Some s => String.eqb s "COMPLETED"
  | None => false
  end.

(** Section 6: the outcome a verification reports for a unified state. *)
Definition outcome (u : UnifiedState) : string :=
  match u with
  | SUCCESS => "SUCCESS"
  | PENDING_VERIFICATION => "PENDING"
  | FAILED => "FAILED"
  end.

End Spec.

(** ** Example data *)

Definition env_ok : Env :=
  {| now := "2025-01-01T10:00:00.000Z"; mail := Resolved tt; firestore := Resolved tt |}.

Definition order_500 : InitiationBody :=
  {| amount := Some 500%Z;
     ecommPlan := Some "Starter";
     hostingPlan := Some "Shared";
     customerName := Some "Asha Rao";
     customerEmail := Some "asha@example.com";
     customerPhone := Some "9876543210" |}.

Definition empty_world : World := {| pendingPayments := ∅; trace := [] |}.

(** A Cashfree transaction [CMS_1] after a successful initiation. *)
Definition cashfree_world : World :=
  (exec (PaymentController.initiateCashfreePayment env_ok "CMS_1"
           (Resolved (Some {| order_id := Some "CMS_1"; payment_session_id := Some "session_1" |}))
           order_500)
        empty_world).2.

(** A PhonePe transaction [CMS_2] after a successful initiation. *)
Definition phonepe_world : World :=
  (exec (PaymentController.initiatePhonePePayment env_ok "CMS_2"
           (Resolved (Some {| redirectUrl := Some "https://pay.example/CMS_2";
                              orderId := Some "OMO_2";
                              expireAt := None |}))
           order_500)
        empty_world).2.

Definition cashfree_paid_poll : Signal :=
  CashfreePoll env_ok "CMS_1" (Resolved (Some {| order_status := Some "PAID" |})).

Definition cashfree_paid_event : CashfreeEvent :=
  {| event_order_id := Some "CMS_1"; event_order_status := Some "PAID" |}.

Definition phonepe_completed_poll : Signal :=
  PhonePePoll env_ok "CMS_2"
    (Resolved (Some {| state := Some "COMPLETED"; paymentDetails := [] |})).

Definition phonepe_pending_poll : Signal :=
  PhonePePoll env_ok "CMS_2"
    (Resolved (Some {| state := Some "PENDING"; paymentDetails := [] |})).

Definition phonepe_failed_poll : Signal :=
  PhonePePoll env_ok "CMS_2"
    (Resolved (Some {| state := Some "FAILED"; paymentDetails := [] |})).

(** A PayPal order [PAYPAL_3] after a successful initiation. *)
Definition paypal_world : World :=
  (exec (PayPalController.initiatePayPalPayment env_ok (Resolved tt)
           (Resolved {| paypal_id := "PAYPAL_3";
                        approve_link := Some (Some "https://paypal.example/approve/PAYPAL_3") |})
           order_500)
        empty_world).2.

(** A capture response whose [status] is not COMPLETED. *)
Definition capture_not_completed : PayPalCapture :=
  {| capture_status := Some "PENDING";
     given_name := Some "Asha";
     surname := Some "Rao";
     email_address := Some "asha@example.com";
     purchase_units :=
       Some [{| payments := Some {| captures := Some [{| amount_value := Some "500.00" |}] |};
                description := Some "CraftMyStore - Starter + Shared" |}] |}.

Definition provider_down : JsError :=
  {| message := "connect ETIMEDOUT"; response_message := None |}.

(** A capture response whose [status] is COMPLETED. *)
Definition capture_completed : PayPalCapture :=
  {| capture_status := Some "COMPLETED";
     given_name := Some "Mallory";
     surname := Some "Doe";
     email_address := Some "mallory@example.com";
     purchase_units :=
       Some [{| payments := Some {| captures := Some [{| amount_value := Some "1.00" |}] |};
                description := None |}] |}.

(** A PhonePe callback for [CMS_2] without a [status] query parameter. *)
Definition callback_without_status : Signal :=
  PhonePeCallback env_ok {| query_merchantTransactionId := Some "CMS_2"; query_status := None |}.

(** An initiation request with a negative amount. *)
Definition order_negative : InitiationBody :=
  {| amount := Some (-5)%Z;
     ecommPlan := Some "Starter";
     hostingPlan := Some "Shared";
     customerName := Some "Asha Rao";
     customerEmail := Some "asha@example.com";
     customerPhone := Some "9876543210" |}.

Definition env_mail_down : Env :=
  {| now := "2025-01-01T10:00:00.000Z";
     mail := Rejected {| message := "ECONNREFUSED smtp"; response_message := None |};
     firestore := Rejected {| message := "DEADLINE_EXCEEDED"; response_message := None |} |}.

(** ** Requests to the exported handlers *)

(** A request to one of the handlers the two controller files export,
    together with the answers of the outside world while it is served. *)
Inductive Request :=
| InitiatePhonePe (env : Env) (merchantTransactionId : string)
    (pay : Outcome (option PhonePePay)) (req : InitiationBody)
| InitiateCashfree (env : Env) (merchantTransactionId : string)
    (createOrder : Outcome (option CashfreeOrder)) (req : InitiationBody)
| InitiatePayPal (env : Env) (token : Outcome unit)
    (createOrder : Outcome PayPalOrder) (req : InitiationBody)
| CapturePayPal (env : Env) (token : Outcome unit)
    (capture : Outcome (option PayPalCapture)) (orderID : option string)
| StatusSignal (s : Signal).

Definition serve (r : Request) : Prog Response :=
  match r with
  | InitiatePhonePe env id pay req => PaymentController.initiatePhonePePayment env id pay req
  | InitiateCashfree env id createOrder req =>
      PaymentController.initiateCashfreePayment env id createOrder req
  | InitiatePayPal env token createOrder req =>
      PayPalController.initiatePayPalPayment env token createOrder req
  | CapturePayPal env token capture orderID =>
      PayPalController.capturePayPalPayment env token capture orderID
  | StatusSignal s => handler s
  end.

(** The request passes the checks of [initiatePhonePePayment]: the four
    required fields are truthy, the phone is ten digits, the amount is
    positive. *)
Definition phonepe_accepts (req : InitiationBody) : bool :=
  match amount req, customerPhone req, customerEmail req, customerName req with
  | Some n, Some phone, Some email, Some name =>
      (0 <? n)%Z && Js.ten_digits phone && negb (String.eqb email "") && negb (String.eqb name "")
  | _, _, _, _ => false
  end.

(** The request passes the one check of [initiateCashfreePayment] and of
    [initiatePayPalPayment]: amount, email and name are truthy. *)
Definition has_required_fields (req : InitiationBody) : bool :=
  match amount req, customerEmail req, customerName req with
  | Some n, Some email, Some name =>
      negb (n =? 0)%Z && negb (String.eqb email "") && negb (String.eqb name "")
  | _, _, _ => false
  end.

(** [encodeURIComponent(customerName)] does not throw. *)
Definition encodable (req : InitiationBody) : bool :=
  Js.well_formed (Js.render (Js.field (customerName req))).

(** The PayPal order an initiation ends up with: the request has the
    required fields, both PayPal calls are answered and the order has an
    approval link. *)
Definition paypal_order_created (token : Outcome unit) (createOrder : Outcome PayPalOrder)
    (req : InitiationBody) : option PayPalOrder :=
  if has_required_fields req then
    match token, createOrder with
    | Resolved _, Resolved order =>
        match approve_link order with
        | Some _ => Some order
        | None => None
        end
    | _, _ => None
    end
  else None.

(** The property assignments the handler of a signal makes on the payment
    object the signal names, in program order. *)
Definition assignments (s : Signal) : list (string * Value) :=
  match s with
  | PhonePePoll env _ (Resolved statusResponse) =>
      [("status",
        Js.or (match statusResponse with
               | Some r => Js.field (state r)
               | None => VUndefined
               end) (VString "UNKNOWN"));
       ("verifiedAt", VString (now env));
       ("paymentDetails",
        match statusResponse with
        | Some r => VObject (BPhonePeStatus r)
        | None => VNull
        end)]
  | PhonePePoll _ _ (Rejected _) => []
  | PhonePeCallback env query =>
      [("status", Js.or (Js.field (query_status query)) (VString "COMPLETED"));
       ("updatedAt", VString (now env))]
  | CashfreePoll env _ (Resolved (Some r)) =>
      [("status", Js.field (order_status r));
       ("verifiedAt", VString (now env));
       ("paymentDetails", VObject (BCashfreeFetch r))]
  | CashfreePoll _ _ _ => []
  | CashfreeWebhook env (Some ev) =>
      [("status",
        if Js.is_string (Js.field (event_order_status ev)) "PAID"
        then VString "COMPLETED"
        else Js.field (event_order_status ev));
       ("updatedAt", VString (now env));
       ("webhookData", VObject (BCashfreeEvent ev))]
  | CashfreeWebhook _ None => []
  end.

(** The properties a status signal may assign. *)
Definition signal_keys : list string :=
  ["status"; "verifiedAt"; "paymentDetails"; "updatedAt"; "webhookData"].

(** What reading [key] gives after the assignments [l], when it gave
    [before] before them. *)
Definition lookup_after (before : option Value) (l : list (string * Value)) (key : string)
  : option Value :=
  foldl (λ acc kv, if decide (kv.1 = key) then Some kv.2 else acc) before l.

(** The answers of the outside world a signal comes with. *)
Definition signal_env (s : Signal) : Env :=
  match s with
  | PhonePePoll env _ _ | PhonePeCallback env _ | CashfreePoll env _ _
  | CashfreeWebhook env _ => env
  end.

(** The same request handled on another occasion: at another clock
    reading and with other answers of the mail transport and of Firestore. *)
Definition with_env (env : Env) (s : Signal) : Signal :=
  match s with
  | PhonePePoll _ id answer => PhonePePoll env id answer
  | PhonePeCallback _ query => PhonePeCallback env query
  | CashfreePoll _ id answer => CashfreePoll env id answer
  | CashfreeWebhook _ eventData => CashfreeWebhook env eventData
  end.

(** The payment method the handler of a signal archives. *)
Definition signal_method (s : Signal) : string :=
  match s with
  | PhonePePoll _ _ _ | PhonePeCallback _ _ => "phonepe"
  | CashfreePoll _ _ _ | CashfreeWebhook _ _ => "cashfree"
  end.

(** The document archived for the stored payment object [o] when a handler
    dispatches at clock reading [t] with payment method [method]. *)
Definition archived_doc (t method : string) (o : gmap string Value) : PaymentDoc :=
  {| customerInfo_name := Js.or (Js.prop o "customerName") (VString "");
     customerInfo_email := Js.or (Js.prop o "customerEmail") (VString "");
     customerInfo_phone := Js.or (Js.prop o "customerPhone") (VString "");
     transactionInfo_id := Js.or (Js.prop o "merchantTransactionId") (VString "");
     transactionInfo_amount := Js.or (Js.prop o "amount") (VNumber 0);
     transactionInfo_status := VString "COMPLETED";
     transactionInfo_paymentMethod := VString method;
     transactionInfo_createdAt := Js.or (Js.prop o "createdAt") (VString t);
     transactionInfo_updatedAt := VString t;
     planDetails_ecommPlan := Js.or (Js.prop o "ecommPlan") (VString "");
     planDetails_hostingPlan := Js.or (Js.prop o "hostingPlan") (VString "") |}.

(** PayPal answered both the token request and the capture request. *)
Definition capture_answered {A} (token : Outcome unit) (capture : Outcome A) : bool :=
  match token, capture with
  | Resolved _, Resolved _ => true
  | _, _ => false
  end.

(** [capturePayPalPayment] can make a payment object from the capture
    response: the response is there, it has [purchase_units], and its first
    unit has no [payments] without [captures]. *)
Definition capture_readable (captureData : option PayPalCapture) : bool :=
  match captureData with
  | Some d =>
      match purchase_units d with
      | Some units =>
          match PayPalController.first_capture_value (head units) with
          | Some _ => true
          | None => false
          end
      | None => false
      end
  | None => false
  end.

(** The id under which a request may write to [global.pendingPayments]. *)
Definition request_target (r : Request) : option string :=
  match r with
  | InitiatePhonePe _ id _ _ | InitiateCashfree _ id _ _ => Some id
  | InitiatePayPal _ _ (Resolved order) _ => Some (paypal_id order)
  | InitiatePayPal _ _ (Rejected _) _ => None
  | CapturePayPal _ _ _ orderID => orderID
  | StatusSignal s => target s
  end.

(** The id a request names is the name of a property every object
    inherits from [Object.prototype]. *)
Definition inherited_target (id : option string) : bool :=
  match id with
  | Some id => Js.inherited id
  | None => false
  end.

(** The description [initiatePayPalPayment] gives the PayPal order (and
    [initiateCashfreePayment] the order note). *)
Definition orderDescription (req : InitiationBody) : string :=
  "CraftMyStore - " +:+ Js.render (Js.field (ecommPlan req)) +:+ " + "
  +:+ Js.render (Js.field (hostingPlan req)).

(** [s.includes('-')]. *)
Fixpoint has_dash (s : string) : bool :=
  match s with
  | EmptyString => false
  | String c s' => PayPalController.is_dash c || has_dash s'
  end.

(** A capture response whose first purchase unit carries the description
    [initiatePayPalPayment] gave the order for [req]. *)
Definition capture_of_order (req : InitiationBody) (given family email : option string)
    (unit_payments : option PayPalPayments) (more : list PayPalUnit) : PayPalCapture :=
  {| capture_status := Some "COMPLETED";
     given_name := given;
     surname := family;
     email_address := email;
     purchase_units :=
       Some ({| payments := unit_payments; description := Some (orderDescription req) |}
             :: more) |}.


(** Five minutes after [env_ok]. *)
Definition env_later : Env :=
  {| now := "2025-01-01T10:05:00.000Z"; mail := Resolved tt; firestore := Resolved tt |}.

(** ** Running handlers: basic facts *)

Lemma exec_bind {A B} (p : Prog A) (f : A → Prog B) (w : World) :
  exec (bind p f) w =
  match exec p w with
  | (Resolved a, w') => exec (f a) w'
  | (Rejected e, w') => (Rejected e, w')
  end.
Proof. revert w. induction p; intros w; simpl; auto. Qed.

Lemma exec_try_catch {A} (p : Prog A) (h : JsError → Prog A) (w : World) :
  exec (try_catch p h) w =
  match exec p w with
  | (Resolved a, w') => (Resolved a, w')
  | (Rejected e, w') => exec (h e) w'
  end.
Proof. revert w. induction p; intros w; simpl; auto. Qed.

Lemma resume_finished {A} (p : Prog A) (w : World) :
  finished p = true → resume p w = (p, w).
Proof. destruct p; simpl; congruence. Qed.

Lemma known_insert (st : gmap string (gmap string Value)) id o :
  known (<[id := o]> st) id = true.
Proof. unfold known. by rewrite lookup_insert_eq. Qed.

Lemma known_None (st : gmap string (gmap string Value)) id :
  st !! id = None → known st id = false.
Proof. unfold known. by intros ->. Qed.

Lemma known_Some (st : gmap string (gmap string Value)) id :
  known st id = true → ∃ o, st !! id = Some o.
Proof. unfold known. destruct (st !! id); [eauto | discriminate]. Qed.

Lemma known_dom (st1 st2 : gmap string (gmap string Value)) id :
  dom st1 = dom st2 → known st1 id = known st2 id.
Proof.
  intros Hdom. unfold known.
  destruct (st1 !! id) as [o1|] eqn:H1, (st2 !! id) as [o2|] eqn:H2; try reflexivity.
  - assert (id ∈ dom st2) as Hin by (rewrite <- Hdom; apply elem_of_dom; eauto).
    apply elem_of_dom in Hin as [? ?]. congruence.
  - assert (id ∈ dom st1) as Hin by (rewrite Hdom; apply elem_of_dom; eauto).
    apply elem_of_dom in Hin as [? ?]. congruence.
Qed.

Lemma truthy_string (s : string) : s ≠ "" → Js.truthy (VString s) = true.
Proof. destruct s; [done | reflexivity]. Qed.

Lemma truthy_string_inv (s : string) : Js.truthy (VString s) = true → s ≠ "".
Proof. destruct s; [discriminate | done]. Qed.

Lemma notifications_app (t1 t2 : list Event) :
  notifications (t1 ++ t2) = notifications t1 + notifications t2.
Proof. unfold notifications. by rewrite List.filter_app, length_app. Qed.

Lemma archives_app (t1 t2 : list Event) :
  archives (t1 ++ t2) = archives t1 + archives t2.
Proof. unfold archives. by rewrite List.filter_app, length_app. Qed.

Lemma provider_calls_app (t1 t2 : list Event) :
  provider_calls (t1 ++ t2) = provider_calls t1 + provider_calls t2.
Proof. unfold provider_calls. by rewrite List.filter_app, length_app. Qed.

(** Symbolic execution of a handler on a store in which the transaction is
    bound. *)
Ltac run :=
  repeat first
    [ progress cbn [exec resume bind try_catch call await assign deref store
                    notifyAndArchive sendAdminNotificationEmail storePaymentData
                    negb andb orb fst snd pendingPayments trace Js.field Js.is_string Js.truthy
                    order_status state event_order_id event_order_status
                    query_merchantTransactionId query_status now mail firestore]
    | rewrite known_insert
    | rewrite lookup_insert_eq
    | rewrite insert_insert_eq
    | rewrite String.eqb_refl
    | match goal with H : String.eqb _ _ = _ |- _ => rewrite H end ].

Ltac count :=
  rewrite ?dom_insert_L, ?notifications_app, ?archives_app, ?provider_calls_app;
  cbn; split_and?; try reflexivity; try lia.

Ltac bound_or_not st id H :=
  destruct (st !! id) as [?o|] eqn:H;
  [ rewrite <- (insert_id st id _ H) | rewrite ?(known_None _ _ H) ].

Ltac known_world w H :=
  let st := fresh "st" in
  let tr := fresh "tr" in
  let o := fresh "o" in
  let Hst := fresh "Hst" in
  destruct w as [st tr]; cbn [pendingPayments] in H;
  apply known_Some in H as [o Hst];
  rewrite <- (insert_id st _ o Hst).

Ltac status_lookup :=
  unfold stored_status; cbn [pendingPayments];
  rewrite lookup_insert_eq; cbn [mbind option_bind];
  repeat first [ rewrite lookup_insert_eq | rewrite lookup_insert_ne by discriminate ];
  try reflexivity.

Ltac read_field :=
  unfold answer_field, answer; run;
  cbn [mbind option_bind body json Js.object list_to_map fold_right fst snd];
  repeat first [ rewrite lookup_insert_eq | rewrite lookup_insert_ne by discriminate ];
  try reflexivity.

Ltac prop_lookup :=
  unfold stored_prop, stored_status; cbn [pendingPayments];
  rewrite ?lookup_insert_eq; cbn [mbind option_bind];
  repeat first [ rewrite lookup_insert_eq | rewrite lookup_insert_ne by discriminate ];
  try reflexivity.

Ltac logged :=
  cbn [pendingPayments trace];
  rewrite ?elem_of_app, ?list_elem_of_singleton; auto 10.

(** Every handler answers the request: whatever is thrown inside is caught
    by the handler's own [catch]. *)
Lemma handler_answers (s : Signal) (w : World) :
  ∃ r, (exec (handler s) w).1 = Resolved r.
Proof.
  destruct s; cbn [handler];
    unfold PaymentController.verifyPhonePePayment, PaymentController.phonePeCallback,
           PaymentController.verifyCashfreePayment, PaymentController.cashfreeWebhook;
    rewrite exec_try_catch;
    match goal with |- context [exec ?p w] => destruct (exec p w) as [[r|e] w'] end;
    cbn; eauto.
Qed.

(** ** What one signal does to the store and to the dispatch counts *)

Lemma phonePePoll_effect env id answer (st : gmap string (gmap string Value)) tr :
  let s := PhonePePoll env id answer in
  let w' := deliver {| pendingPayments := st; trace := tr |} s in
  dom (pendingPayments w') = dom st
  ∧ notifications (trace w') = notifications tr + (if fires st s then 1 else 0)
  ∧ archives (trace w') = archives tr + (if fires st s then 1 else 0).
Proof.
  intros s w'. subst s w'.
  unfold deliver, fires, handler, PaymentController.verifyPhonePePayment, target, success_signal.
  cbn [Js.truthy]. destruct (String.eqb id "") eqn:Hid; cbn [negb andb].
  { rewrite andb_false_r. run. count. }
  bound_or_not st id Hst.
  2:{ run. rewrite ?(known_None _ _ Hst). run. rewrite andb_false_r. count. }
  destruct env as [t m f].
  destruct answer as [[[[s0|] details]|]|e]; run.
  - destruct (String.eqb s0 "COMPLETED") eqn:Hc; run.
    + destruct m, f; run; count.
    + destruct (String.eqb s0 "PENDING") eqn:Hp; run; count.
  - count.
  - count.
  - count.
Qed.

Lemma phonePeCallback_effect env query (st : gmap string (gmap string Value)) tr :
  let s := PhonePeCallback env query in
  let w' := deliver {| pendingPayments := st; trace := tr |} s in
  dom (pendingPayments w') = dom st
  ∧ notifications (trace w') = notifications tr + (if fires st s then 1 else 0)
  ∧ archives (trace w') = archives tr + (if fires st s then 1 else 0).
Proof.
  intros s w'. subst s w'.
  unfold deliver, fires, handler, PaymentController.phonePeCallback, target, success_signal.
  destruct query as [[id|] status]; run; [|count].
  destruct (String.eqb id "") eqn:Hid; run; [count|].
  bound_or_not st id Hst; run; count.
Qed.

Lemma cashfreePoll_effect env id answer (st : gmap string (gmap string Value)) tr :
  let s := CashfreePoll env id answer in
  let w' := deliver {| pendingPayments := st; trace := tr |} s in
  dom (pendingPayments w') = dom st
  ∧ notifications (trace w') = notifications tr + (if fires st s then 1 else 0)
  ∧ archives (trace w') = archives tr + (if fires st s then 1 else 0).
Proof.
  intros s w'. subst s w'.
  unfold deliver, fires, handler, PaymentController.verifyCashfreePayment, target, success_signal.
  cbn [Js.truthy]. destruct (String.eqb id "") eqn:Hid; cbn [negb andb].
  { rewrite andb_false_r. run. count. }
  bound_or_not st id Hst.
  2:{ run. rewrite ?(known_None _ _ Hst). run. rewrite andb_false_r. count. }
  destruct env as [t m f].
  destruct answer as [[[[s0|]]|]|e]; run.
  - destruct (String.eqb s0 "PAID") eqn:Hp; run.
    + destruct m, f; run; count.
    + destruct (String.eqb s0 "ACTIVE") eqn:Ha; run; count.
  - count.
  - count.
  - count.
Qed.

Lemma cashfreeWebhook_effect env eventData (st : gmap string (gmap string Value)) tr :
  let s := CashfreeWebhook env eventData in
  let w' := deliver {| pendingPayments := st; trace := tr |} s in
  dom (pendingPayments w') = dom st
  ∧ notifications (trace w') = notifications tr + (if fires st s then 1 else 0)
  ∧ archives (trace w') = archives tr + (if fires st s then 1 else 0).
Proof.
  intros s w'. subst s w'.
  unfold deliver, fires, handler, PaymentController.cashfreeWebhook, target, success_signal.
  destruct eventData as [[[id|] status]|]; run.
  2:{ rewrite andb_false_r. count. }
  2:{ count. }
  cbn [mbind option_bind event_order_id].
  cbn [Js.truthy]. destruct (String.eqb id "") eqn:Hid; cbn [negb andb].
  { rewrite andb_false_r. run. count. }
  bound_or_not st id Hst.
  2:{ run. rewrite andb_false_r. count. }
  destruct env as [t m f].
  destruct status as [s0|]; run; [|count].
  destruct (String.eqb s0 "PAID") eqn:Hp; run; [|count].
  destruct m, f; run; count.
Qed.

Lemma deliver_effect (w : World) (s : Signal) :
  dom (pendingPayments (deliver w s)) = dom (pendingPayments w)
  ∧ notifications (trace (deliver w s))
    = notifications (trace w) + (if fires (pendingPayments w) s then 1 else 0)
  ∧ archives (trace (deliver w s))
    = archives (trace w) + (if fires (pendingPayments w) s then 1 else 0).
Proof.
  destruct w as [st tr], s; cbn [pendingPayments trace].
  - apply phonePePoll_effect.
  - apply phonePeCallback_effect.
  - apply cashfreePoll_effect.
  - apply cashfreeWebhook_effect.
Qed.

(** ** C1: dispatch and success signals *)

Lemma fires_dom (st1 st2 : gmap string (gmap string Value)) (s : Signal) :
  dom st1 = dom st2 → fires st1 s = fires st2 s.
Proof.
  intros Hdom. unfold fires. destruct (target s) as [id|]; [|reflexivity].
  by rewrite (known_dom st1 st2 id Hdom).
Qed.

Lemma fires_target (st : gmap string (gmap string Value)) (s : Signal) (id : string) :
  id ≠ "" → known st id = true → target s = Some id →
  fires st s = success_signal s.
Proof.
  intros Hid Hk Ht. unfold fires. rewrite Ht, Hk, (truthy_string id Hid).
  by rewrite andb_true_r.
Qed.

Lemma filter_fires_target (st : gmap string (gmap string Value)) (id : string)
    (signals : list Signal) :
  id ≠ "" → known st id = true → Forall (λ s, target s = Some id) signals →
  List.filter (fires st) signals = List.filter success_signal signals.
Proof.
  intros Hid Hk Hall. induction Hall as [|s l Hs Hl IH]; [reflexivity|].
  cbn [List.filter]. rewrite (fires_target st s id Hid Hk Hs), IH. reflexivity.
Qed.

Lemma deliver_all_effect (signals : list Signal) (w : World) :
  dom (pendingPayments (deliver_all w signals)) = dom (pendingPayments w)
  ∧ notifications (trace (deliver_all w signals))
    = notifications (trace w) + length (List.filter (fires (pendingPayments w)) signals)
  ∧ archives (trace (deliver_all w signals))
    = archives (trace w) + length (List.filter (fires (pendingPayments w)) signals).
Proof.
  revert w. induction signals as [|s signals IH]; intros w.
  - cbn. split_and!; [reflexivity | lia | lia].
  - cbn [deliver_all foldl]. fold (deliver_all (deliver w s) signals).
    destruct (IH (deliver w s)) as (Hdom & Hn & Ha).
    destruct (deliver_effect w s) as (Hdom1 & Hn1 & Ha1).
    rewrite Hdom, Hn, Ha, Hn1, Ha1.
    rewrite (List.filter_ext _ _ (λ s', fires_dom _ _ s' Hdom1)).
    cbn [List.filter]. destruct (fires (pendingPayments w) s); cbn [length];
      split_and!; [assumption | lia | lia | assumption | lia | lia].
Qed.

(** C1 (as amended).  For a transaction of [global.pendingPayments] and any
    sequence of status signals that name it, the admin notification and the
    archive write are each issued once per signal that carries the provider's
    success value: the number of dispatches is the number of such signals in
    the sequence, and no other signal dispatches. *)
Theorem dispatch_once_per_success_signal (w : World) (id : string) (signals : list Signal) :
  id ≠ "" →
  known (pendingPayments w) id = true →
  Forall (λ s, target s = Some id) signals →
  notifications (trace (deliver_all w signals))
    = notifications (trace w) + length (List.filter success_signal signals)
  ∧ archives (trace (deliver_all w signals))
    = archives (trace w) + length (List.filter success_signal signals).
Proof.
  intros Hid Hk Hall.
  destruct (deliver_all_effect signals w) as (_ & Hn & Ha).
  rewrite (filter_fires_target _ _ _ Hid Hk Hall) in Hn, Ha.
  by split.
Qed.

Lemma dispatch_once_per_success_signal_witness :
  notifications (trace (deliver_all cashfree_world [cashfree_paid_poll; cashfree_paid_poll]))
    = notifications (trace cashfree_world)
      + length (List.filter success_signal [cashfree_paid_poll; cashfree_paid_poll])
  ∧ archives (trace (deliver_all cashfree_world [cashfree_paid_poll; cashfree_paid_poll]))
    = archives (trace cashfree_world)
      + length (List.filter success_signal [cashfree_paid_poll; cashfree_paid_poll]).
Proof.
  apply (dispatch_once_per_success_signal cashfree_world "CMS_1"
           [cashfree_paid_poll; cashfree_paid_poll]).
  - discriminate.
  - vm_compute. reflexivity.
  - repeat constructor.
Defined.

(** C1 (as stated) fails: the same PAID poll applied twice to one
    transaction issues two notifications and two archive writes. *)
Lemma same_success_signal_twice_dispatches_twice :
  stored_status (deliver cashfree_world cashfree_paid_poll) "CMS_1" = Some (VString "PAID")
  ∧ notifications (trace (deliver_all cashfree_world [cashfree_paid_poll; cashfree_paid_poll])) = 2
  ∧ archives (trace (deliver_all cashfree_world [cashfree_paid_poll; cashfree_paid_poll])) = 2.
Proof. vm_compute. auto. Qed.

(** ** C2: two deliveries in flight *)

Lemma Dispatches_finished id n a (p : Prog Response) :
  Dispatches id n a p → finished p = true → n = 0 ∧ a = 0.
Proof. intros [p' Hp | p' dn da n' a' Hp _ _] Hf; [done | congruence]. Qed.

(** Whatever the schedule, what two handlers dispatch adds up. *)
Lemma interleave_dispatches (id : string) (schedule : list bool) :
  ∀ (p q : Prog Response) (w : World) (n1 a1 n2 a2 : nat),
    Dispatches id n1 a1 p →
    Dispatches id n2 a2 q →
    known (pendingPayments w) id = true →
    finished (interleave schedule p q w).1.1 = true →
    finished (interleave schedule p q w).1.2 = true →
    notifications (trace (interleave schedule p q w).2) = notifications (trace w) + n1 + n2
    ∧ archives (trace (interleave schedule p q w).2) = archives (trace w) + a1 + a2.
Proof.
  induction schedule as [|[] schedule IH]; intros p q w n1 a1 n2 a2 Hp Hq Hw Hfp Hfq.
  - cbn in *.
    destruct (Dispatches_finished _ _ _ _ Hp Hfp) as [-> ->].
    destruct (Dispatches_finished _ _ _ _ Hq Hfq) as [-> ->]. lia.
  - cbn [interleave] in *.
    destruct Hp as [p Hp | p dn da n a Hp Hstep Hrest].
    + rewrite (resume_finished p w Hp) in *. cbn [fst snd] in *.
      apply (IH p q w 0 0 n2 a2); auto using Dispatches_done.
    + destruct (Hstep w Hw) as (Hw' & Hn & Ha).
      destruct (IH _ q _ n a n2 a2 (Hrest w Hw) Hq Hw' Hfp Hfq) as [Hn' Ha'].
      rewrite Hn', Ha', Hn, Ha. lia.
  - cbn [interleave] in *.
    destruct Hq as [q Hq | q dn da n a Hq Hstep Hrest].
    + rewrite (resume_finished q w Hq) in *. cbn [fst snd] in *.
      apply (IH p q w n1 a1 0 0); auto using Dispatches_done.
    + destruct (Hstep w Hw) as (Hw' & Hn & Ha).
      destruct (IH p _ _ n1 a1 n a Hp (Hrest w Hw) Hw' Hfp Hfq) as [Hn' Ha'].
      rewrite Hn', Ha', Hn, Ha. lia.
Qed.

(** A PAID webhook delivery for a bound order dispatches one notification
    and one archive write over its turns. *)
Lemma cashfreeWebhook_dispatches (env : Env) (ev : CashfreeEvent) (id : string) :
  id ≠ "" →
  event_order_id ev = Some id →
  event_order_status ev = Some "PAID" →
  Dispatches id 1 1 (PaymentController.cashfreeWebhook env (Some ev)).
Proof.
  intros Hid Hoid Hst. destruct ev as [oid status]. cbn in Hoid, Hst. subst oid status.
  assert (String.eqb id "" = false) as Hid' by (by apply String.eqb_neq).
  destruct env as [t m f].
  unfold PaymentController.cashfreeWebhook.
  apply (Dispatches_turn id _ 1 0 0 1); [reflexivity | |].
  { intros w Hw. known_world w Hw. run. count. }
  intros w Hw. known_world w Hw. run.
  destruct m as [[]|e]; run.
  - apply (Dispatches_turn id _ 0 1 0 0); [reflexivity | |].
    { intros w Hw. known_world w Hw. run. count. }
    intros w Hw. known_world w Hw. run.
    destruct f as [[]|e]; run.
    + by apply Dispatches_done.
    + apply (Dispatches_turn id _ 0 0 0 0); [reflexivity | |].
      { intros w Hw. known_world w Hw. run. count. }
      intros w Hw. run. by apply Dispatches_done.
  - apply (Dispatches_turn id _ 0 1 0 0); [reflexivity | |].
    { intros w Hw. known_world w Hw. run. count. }
    intros w Hw. known_world w Hw. run.
    destruct f as [[]|e']; run.
    + by apply Dispatches_done.
    + apply (Dispatches_turn id _ 0 0 0 0); [reflexivity | |].
      { intros w Hw. known_world w Hw. run. count. }
      intros w Hw. run. by apply Dispatches_done.
Qed.

(** C2 (as amended).  [global.pendingPayments] has no per-id serialization
    and no dispatched flag: when two Cashfree webhook deliveries with
    [order_status] PAID for the same bound order are in flight together,
    then under every schedule of their turns that lets both finish, exactly
    two notifications and exactly two archive writes are issued, one pair
    per delivery. *)
Theorem concurrent_paid_webhooks_dispatch_twice
    (env1 env2 : Env) (ev : CashfreeEvent) (id : string) (w : World) (schedule : list bool) :
  id ≠ "" →
  event_order_id ev = Some id →
  event_order_status ev = Some "PAID" →
  known (pendingPayments w) id = true →
  let final :=
    interleave schedule
      (PaymentController.cashfreeWebhook env1 (Some ev))
      (PaymentController.cashfreeWebhook env2 (Some ev)) w in
  finished final.1.1 = true →
  finished final.1.2 = true →
  notifications (trace final.2) = notifications (trace w) + 2
  ∧ archives (trace final.2) = archives (trace w) + 2.
Proof.
  intros Hid Hoid Hstatus Hw final Hp Hq.
  destruct (interleave_dispatches id schedule _ _ w 1 1 1 1
              (cashfreeWebhook_dispatches env1 ev id Hid Hoid Hstatus)
              (cashfreeWebhook_dispatches env2 ev id Hid Hoid Hstatus)
              Hw Hp Hq) as [Hn Ha].
  fold final in Hn, Ha. lia.
Qed.

Lemma concurrent_paid_webhooks_dispatch_twice_witness :
  let final :=
    interleave [true; false; false; true; true; false]
      (PaymentController.cashfreeWebhook env_ok (Some cashfree_paid_event))
      (PaymentController.cashfreeWebhook env_ok (Some cashfree_paid_event)) cashfree_world in
  notifications (trace final.2) = notifications (trace cashfree_world) + 2
  ∧ archives (trace final.2) = archives (trace cashfree_world) + 2.
Proof.
  apply (concurrent_paid_webhooks_dispatch_twice env_ok env_ok cashfree_paid_event "CMS_1"
           cashfree_world [true; false; false; true; true; false]).
  - discriminate.
  - reflexivity.
  - reflexivity.
  - vm_compute. reflexivity.
  - vm_compute. reflexivity.
  - vm_compute. reflexivity.
Defined.

(** C2 (as stated) fails: two PAID webhook deliveries for the order [CMS_1],
    taking turns on the event loop, both finish and the mail transport and
    Firestore are each called twice. *)
Lemma concurrent_paid_webhooks_two_calls :
  let final :=
    interleave [true; false; true; false; true; false]
      (PaymentController.cashfreeWebhook env_ok (Some cashfree_paid_event))
      (PaymentController.cashfreeWebhook env_ok (Some cashfree_paid_event)) cashfree_world in
  finished final.1.1 = true
  ∧ finished final.1.2 = true
  ∧ notifications (trace cashfree_world) = 0
  ∧ archives (trace cashfree_world) = 0
  ∧ notifications (trace final.2) = 2
  ∧ archives (trace final.2) = 2.
Proof. vm_compute. auto 10. Qed.

(** ** C3: a later signal overwrites the recorded status *)

(** C3 (as amended).  The handlers keep no terminal state: every status
    signal that names a transaction of [global.pendingPayments] and whose
    handler reaches its write replaces the recorded status by the status the
    signal carries, whatever status was recorded before, SUCCESS and FAILED
    included. *)
Theorem later_signal_overwrites_status (w : World) (s : Signal) (id : string) (v : Value) :
  id ≠ "" →
  known (pendingPayments w) id = true →
  target s = Some id →
  recorded_status s = Some v →
  stored_status (deliver w s) id = Some v.
Proof.
  intros Hid Hk Ht Hv.
  assert (String.eqb id "" = false) as Hid' by (by apply String.eqb_neq).
  known_world w Hk.
  destruct s as [env id' answer | env query | env id' answer | env eventData];
    unfold deliver, handler.
  - cbn in Ht. injection Ht as ->.
    unfold PaymentController.verifyPhonePePayment. destruct env as [t m f].
    destruct answer as [[[[s0|] details]|]|e]; cbn in Hv; try discriminate;
      injection Hv as <-; run.
    + destruct (String.eqb s0 "COMPLETED") eqn:Hc; run.
      * destruct m, f; run; status_lookup.
      * destruct (String.eqb s0 "PENDING") eqn:Hp; run; status_lookup.
    + status_lookup.
    + status_lookup.
  - destruct query as [qid status]. cbn in Ht, Hv. subst qid. injection Hv as <-.
    unfold PaymentController.phonePeCallback. run. status_lookup.
  - cbn in Ht. injection Ht as ->.
    unfold PaymentController.verifyCashfreePayment. destruct env as [t m f].
    destruct answer as [[[[s0|]]|]|e]; cbn in Hv; try discriminate;
      injection Hv as <-; run.
    + destruct (String.eqb s0 "PAID") eqn:Hp; run.
      * destruct m, f; run; status_lookup.
      * destruct (String.eqb s0 "ACTIVE") eqn:Ha; run; status_lookup.
    + status_lookup.
  - destruct eventData as [[oid status]|]; cbn in Ht, Hv; try discriminate.
    subst oid. injection Hv as <-.
    unfold PaymentController.cashfreeWebhook. destruct env as [t m f].
    destruct status as [s0|]; run.
    + destruct (String.eqb s0 "PAID") eqn:Hp; run.
      * destruct m, f; run; status_lookup.
      * status_lookup.
    + status_lookup.
Qed.

Lemma later_signal_overwrites_status_witness :
  stored_status (deliver (deliver phonepe_world phonepe_completed_poll) phonepe_pending_poll)
    "CMS_2" = Some (VString "PENDING").
Proof.
  apply (later_signal_overwrites_status
           (deliver phonepe_world phonepe_completed_poll) phonepe_pending_poll "CMS_2").
  - discriminate.
  - vm_compute. reflexivity.
  - reflexivity.
  - reflexivity.
Defined.

(** C3 (as stated) fails: a transaction verified as SUCCESS goes back to
    PENDING when a later poll reports PENDING, and a transaction verified as
    FAILED becomes COMPLETED when a later poll reports COMPLETED. *)
Lemma pending_signal_downgrades_success :
  answer_field (handler phonepe_completed_poll) phonepe_world "status" = Some (VString "SUCCESS")
  ∧ stored_status (deliver phonepe_world phonepe_completed_poll) "CMS_2"
    = Some (VString "COMPLETED")
  ∧ stored_status (deliver_all phonepe_world [phonepe_completed_poll; phonepe_pending_poll])
      "CMS_2" = Some (VString "PENDING")
  ∧ stored_status (deliver_all phonepe_world [phonepe_failed_poll; phonepe_completed_poll])
      "CMS_2" = Some (VString "COMPLETED").
Proof. vm_compute. auto. Qed.

(** ** C4: status translation *)

Lemma verifyPhonePePayment_outcome env (rp : option PhonePeStatus) (id : string) (w : World) :
  id ≠ "" →
  known (pendingPayments w) id = true →
  answer_field (PaymentController.verifyPhonePePayment env (Resolved rp) id) w "status"
  = Some (VString (Spec.outcome (Spec.translate_phonepe (rp ≫= state)))).
Proof.
  intros Hid Hk.
  assert (String.eqb id "" = false) as Hid' by (by apply String.eqb_neq).
  known_world w Hk. destruct env as [t m f].
  unfold PaymentController.verifyPhonePePayment.
  destruct rp as [[[s0|] details]|]; cbn [mbind option_bind state Spec.translate_phonepe].
  - destruct (String.eqb s0 "COMPLETED") eqn:Hc.
    + destruct m, f; read_field.
    + destruct (String.eqb s0 "PENDING") eqn:Hp; read_field.
  - read_field.
  - read_field.
Qed.

Lemma verifyCashfreePayment_outcome env (rd : option CashfreeFetch) (id : string) (w : World) :
  id ≠ "" →
  known (pendingPayments w) id = true →
  answer_field (PaymentController.verifyCashfreePayment env (Resolved rd) id) w "status"
  = Some (VString (Spec.outcome (Spec.translate_cashfree (rd ≫= order_status)))).
Proof.
  intros Hid Hk.
  assert (String.eqb id "" = false) as Hid' by (by apply String.eqb_neq).
  known_world w Hk. destruct env as [t m f].
  unfold PaymentController.verifyCashfreePayment.
  destruct rd as [[[s0|]]|]; cbn [mbind option_bind order_status Spec.translate_cashfree].
  - destruct (String.eqb s0 "PAID") eqn:Hc.
    + destruct m, f; read_field.
    + destruct (String.eqb s0 "ACTIVE") eqn:Hp; read_field.
  - read_field.
  - read_field.
Qed.

(** A capture request that PayPal answers is recorded and reported as a
    completed payment, whatever the [status] of the answer. *)
Lemma capturePayPalPayment_always_completed env (d : option PayPalCapture) (id : string)
    (w : World) :
  id ≠ "" →
  known (pendingPayments w) id = true →
  let p := PayPalController.capturePayPalPayment env (Resolved tt) (Resolved d) (Some id) in
  answer_field p w "success" = Some (VBool true)
  ∧ stored_status (exec p w).2 id = Some (VString "COMPLETED")
  ∧ notifications (trace (exec p w).2) = notifications (trace w) + 1
  ∧ archives (trace (exec p w).2) = archives (trace w) + 1.
Proof.
  intros Hid Hk p. subst p.
  assert (String.eqb id "" = false) as Hid' by (by apply String.eqb_neq).
  known_world w Hk. destruct env as [t m f].
  unfold PayPalController.capturePayPalPayment.
  split_and!.
  - destruct m, f; read_field.
  - destruct m, f; run; status_lookup.
  - destruct m, f; run; count.
  - destruct m, f; run; count.
Qed.

(** C4 (as amended).  For a transaction of [global.pendingPayments]: the
    status a PhonePe verification reports follows the table (COMPLETED is
    SUCCESS, PENDING is PENDING, anything else or absent is FAILED); the
    status a Cashfree verification reports follows the table (PAID is
    SUCCESS, ACTIVE is PENDING, anything else is FAILED); a PayPal capture
    that PayPal answers is recorded as COMPLETED, reported as a success and
    dispatched, whatever the [status] field of the capture response. *)
Theorem status_translation (env : Env) (w : World) (id : string) :
  id ≠ "" →
  known (pendingPayments w) id = true →
  (∀ rp : option PhonePeStatus,
     answer_field (PaymentController.verifyPhonePePayment env (Resolved rp) id) w "status"
     = Some (VString (Spec.outcome (Spec.translate_phonepe (rp ≫= state)))))
  ∧ (∀ rd : option CashfreeFetch,
       answer_field (PaymentController.verifyCashfreePayment env (Resolved rd) id) w "status"
       = Some (VString (Spec.outcome (Spec.translate_cashfree (rd ≫= order_status)))))
  ∧ (∀ d : option PayPalCapture,
       let p := PayPalController.capturePayPalPayment env (Resolved tt) (Resolved d) (Some id) in
       answer_field p w "success" = Some (VBool true)
       ∧ stored_status (exec p w).2 id = Some (VString "COMPLETED")
       ∧ notifications (trace (exec p w).2) = notifications (trace w) + 1
       ∧ archives (trace (exec p w).2) = archives (trace w) + 1).
Proof.
  intros Hid Hk. split_and!.
  - intros rp. by apply verifyPhonePePayment_outcome.
  - intros rd. by apply verifyCashfreePayment_outcome.
  - intros d. by apply capturePayPalPayment_always_completed.
Qed.

Lemma status_translation_witness :
  (∀ rp : option PhonePeStatus,
     answer_field (PaymentController.verifyPhonePePayment env_ok (Resolved rp) "PAYPAL_3")
       paypal_world "status"
     = Some (VString (Spec.outcome (Spec.translate_phonepe (rp ≫= state)))))
  ∧ (∀ rd : option CashfreeFetch,
       answer_field (PaymentController.verifyCashfreePayment env_ok (Resolved rd) "PAYPAL_3")
         paypal_world "status"
       = Some (VString (Spec.outcome (Spec.translate_cashfree (rd ≫= order_status)))))
  ∧ (∀ d : option PayPalCapture,
       let p := PayPalController.capturePayPalPayment env_ok (Resolved tt) (Resolved d)
                  (Some "PAYPAL_3") in
       answer_field p paypal_world "success" = Some (VBool true)
       ∧ stored_status (exec p paypal_world).2 "PAYPAL_3" = Some (VString "COMPLETED")
       ∧ notifications (trace (exec p paypal_world).2) = notifications (trace paypal_world) + 1
       ∧ archives (trace (exec p paypal_world).2) = archives (trace paypal_world) + 1).
Proof.
  apply (status_translation env_ok paypal_world "PAYPAL_3").
  - discriminate.
  - vm_compute. reflexivity.
Defined.

(** C4 (as stated) fails on the PayPal row: a capture response whose
    [status] is PENDING is answered with [success: true], recorded as
    COMPLETED and dispatched. *)
Lemma paypal_capture_not_completed_is_success :
  let p := PayPalController.capturePayPalPayment env_ok (Resolved tt)
             (Resolved (Some capture_not_completed)) (Some "PAYPAL_3") in
  Spec.paypal_success (capture_status capture_not_completed) = false
  ∧ stored_status paypal_world "PAYPAL_3" = Some (VString "PENDING")
  ∧ answer_field p paypal_world "success" = Some (VBool true)
  ∧ stored_status (exec p paypal_world).2 "PAYPAL_3" = Some (VString "COMPLETED")
  ∧ notifications (trace (exec p paypal_world).2) = 1
  ∧ archives (trace (exec p paypal_world).2) = 1.
Proof. vm_compute. auto 10. Qed.

(** ** C5: what an initiation leaves in the store *)


Lemma ten_digits_nonempty (s : string) : Js.ten_digits s = true → String.eqb s "" = false.
Proof. destruct s; [discriminate | reflexivity]. Qed.








(** ** C6: signals that name an unknown transaction *)

Lemma unknown_signal_ignored (w : World) (s : Signal) (id : string) :
  target s = Some id →
  known (pendingPayments w) id = false →
  exec (handler s) w = (Resolved (unknown_transaction_response s), w).
Proof.
  intros Ht Hk. destruct w as [st tr]. cbn [pendingPayments] in Hk.
  destruct s as [env id' answer | env query | env id' answer | env eventData];
    unfold handler, unknown_transaction_response.
  - cbn in Ht. injection Ht as ->.
    unfold PaymentController.verifyPhonePePayment. cbn [Js.truthy].
    destruct (String.eqb id "") eqn:Hid; run; [reflexivity|].
    rewrite Hk. run. reflexivity.
  - destruct query as [qid status]. cbn in Ht. subst qid.
    unfold PaymentController.phonePeCallback. run.
    rewrite Hk, andb_false_r. run. reflexivity.
  - cbn in Ht. injection Ht as ->.
    unfold PaymentController.verifyCashfreePayment. cbn [Js.truthy].
    destruct (String.eqb id "") eqn:Hid; run; [reflexivity|].
    rewrite Hk. run. reflexivity.
  - destruct eventData as [[oid status]|]; cbn in Ht; try discriminate. subst oid.
    unfold PaymentController.cashfreeWebhook. run.
    rewrite Hk, andb_false_r. run. reflexivity.
Qed.

Lemma capturePayPalPayment_fabricates env (d : PayPalCapture) (units : list PayPalUnit)
    (value : Value) (id : string) (w : World) :
  id ≠ "" →
  known (pendingPayments w) id = false →
  purchase_units d = Some units →
  PayPalController.first_capture_value (head units) = Some value →
  let p := PayPalController.capturePayPalPayment env (Resolved tt) (Resolved (Some d)) (Some id) in
  answer_field p w "success" = Some (VBool true)
  ∧ stored_status (exec p w).2 id = Some (VString "COMPLETED")
  ∧ stored_prop (exec p w).2 id "customerEmail"
    = Some (Js.or (Js.field (email_address d)) (VString "No email provided"))
  ∧ notifications (trace (exec p w).2) = notifications (trace w) + 1
  ∧ archives (trace (exec p w).2) = archives (trace w) + 1.
Proof.
  intros Hid Hk Hunits Hvalue p. subst p.
  assert (String.eqb id "" = false) as Hid' by (by apply String.eqb_neq).
  destruct w as [st tr]. cbn [pendingPayments] in Hk.
  assert (st !! id = None) as Hst.
  { unfold known in Hk. destruct (st !! id); [discriminate | reflexivity]. }
  destruct env as [t m f].
  unfold PayPalController.capturePayPalPayment, answer_field, answer, stored_status, stored_prop.
  run. rewrite Hst. unfold PayPalController.paymentInfoFromCapture.
  rewrite Hunits, Hvalue.
  destruct m, f; run;
    (split_and!;
     [ cbn [mbind option_bind body json Js.object list_to_map fold_right fst snd];
       by rewrite lookup_insert_eq
     | cbn [mbind option_bind];
       repeat first [ rewrite lookup_insert_eq | rewrite lookup_insert_ne by discriminate ];
       reflexivity
     | cbn [mbind option_bind Js.object list_to_map fold_right fst snd];
       repeat first [ rewrite lookup_insert_eq | rewrite lookup_insert_ne by discriminate ];
       reflexivity
     | count
     | count ]).
Qed.

Lemma capturePayPalPayment_unreadable env (d : PayPalCapture) (units : list PayPalUnit)
    (id : string) (w : World) :
  id ≠ "" →
  known (pendingPayments w) id = false →
  purchase_units d = Some units →
  PayPalController.first_capture_value (head units) = None →
  let p := PayPalController.capturePayPalPayment env (Resolved tt) (Resolved (Some d)) (Some id) in
  code <$> answer p w = Some 500
  ∧ pendingPayments (exec p w).2 = pendingPayments w
  ∧ notifications (trace (exec p w).2) = notifications (trace w)
  ∧ archives (trace (exec p w).2) = archives (trace w).
Proof.
  intros Hid%String.eqb_neq Hk Hunits Hvalue p. subst p. destruct w as [st tr].
  cbn [pendingPayments] in Hk.
  assert (st !! id = None) as Hst.
  { unfold known in Hk. destruct (st !! id); [discriminate | reflexivity]. }
  unfold PayPalController.capturePayPalPayment, answer.
  run. rewrite Hst. unfold PayPalController.paymentInfoFromCapture.
  rewrite Hunits, Hvalue. run. count.
Qed.

(** C6 (as amended).  On a server whose [Object.prototype] is as Node made
    it, for an id that is neither a key of [global.pendingPayments] nor the
    name of a property every object inherits from [Object.prototype] (for
    those names [global.pendingPayments[id]] is truthy and the handlers go on
    as for a known transaction): a PhonePe or Cashfree verification request is
    answered with 404 "Transaction not found" before any provider call; a
    PhonePe callback or Cashfree webhook is acknowledged with 200; in all
    four cases the handler returns and leaves the store and the outside world
    untouched.  A PayPal capture for such an order id, once PayPal answers it
    with purchase units, makes a payment object from the capture response,
    stores it as COMPLETED, dispatches and answers with success; unless the
    first purchase unit has [payments] without [captures], in which case the
    capture is answered 500 and nothing is stored or dispatched. *)
Theorem unknown_transaction_handling (w : World) (id : string) :
  known (pendingPayments w) id = false →
  Js.inherited id = false →
  (∀ s : Signal,
     target s = Some id →
     exec (handler s) w = (Resolved (unknown_transaction_response s), w))
  ∧ (∀ env (d : PayPalCapture) (units : list PayPalUnit),
       id ≠ "" →
       purchase_units d = Some units →
       let p := PayPalController.capturePayPalPayment env (Resolved tt) (Resolved (Some d))
                  (Some id) in
       match PayPalController.first_capture_value (head units) with
       | Some value =>
           answer_field p w "success" = Some (VBool true)
           ∧ stored_status (exec p w).2 id = Some (VString "COMPLETED")
           ∧ stored_prop (exec p w).2 id "customerEmail"
             = Some (Js.or (Js.field (email_address d)) (VString "No email provided"))
           ∧ notifications (trace (exec p w).2) = notifications (trace w) + 1
           ∧ archives (trace (exec p w).2) = archives (trace w) + 1
       | None =>
           code <$> answer p w = Some 500
           ∧ pendingPayments (exec p w).2 = pendingPayments w
           ∧ notifications (trace (exec p w).2) = notifications (trace w)
           ∧ archives (trace (exec p w).2) = archives (trace w)
       end).
Proof.
  intros Hk _. split.
  - intros s Ht. by apply (unknown_signal_ignored w s id).
  - intros env d units Hid Hunits p. subst p.
    destruct (PayPalController.first_capture_value (head units)) as [value|] eqn:Hvalue.
    + by apply (capturePayPalPayment_fabricates env d units value id w).
    + by apply (capturePayPalPayment_unreadable env d units id w).
Qed.

Lemma unknown_transaction_handling_witness :
  (∀ s : Signal,
     target s = Some "ORDER_9" →
     exec (handler s) cashfree_world = (Resolved (unknown_transaction_response s), cashfree_world))
  ∧ (∀ env (d : PayPalCapture) (units : list PayPalUnit),
       "ORDER_9" ≠ "" →
       purchase_units d = Some units →
       let p := PayPalController.capturePayPalPayment env (Resolved tt) (Resolved (Some d))
                  (Some "ORDER_9") in
       match PayPalController.first_capture_value (head units) with
       | Some value =>
           answer_field p cashfree_world "success" = Some (VBool true)
           ∧ stored_status (exec p cashfree_world).2 "ORDER_9" = Some (VString "COMPLETED")
           ∧ stored_prop (exec p cashfree_world).2 "ORDER_9" "customerEmail"
             = Some (Js.or (Js.field (email_address d)) (VString "No email provided"))
           ∧ notifications (trace (exec p cashfree_world).2)
             = notifications (trace cashfree_world) + 1
           ∧ archives (trace (exec p cashfree_world).2) = archives (trace cashfree_world) + 1
       | None =>
           code <$> answer p cashfree_world = Some 500
           ∧ pendingPayments (exec p cashfree_world).2 = pendingPayments cashfree_world
           ∧ notifications (trace (exec p cashfree_world).2)
             = notifications (trace cashfree_world)
           ∧ archives (trace (exec p cashfree_world).2) = archives (trace cashfree_world)
       end).
Proof.
  apply (unknown_transaction_handling cashfree_world "ORDER_9").
  - vm_compute. reflexivity.
  - vm_compute. reflexivity.
Defined.

(** C6 (as stated) fails: a capture request for the order id [ORDER_9],
    which no initiation ever stored, is answered with [success: true], and a
    payment object made from the capture response is stored as COMPLETED and
    dispatched. *)
Lemma paypal_capture_fabricates_record :
  let p := PayPalController.capturePayPalPayment env_ok (Resolved tt)
             (Resolved (Some capture_completed)) (Some "ORDER_9") in
  known (pendingPayments empty_world) "ORDER_9" = false
  ∧ answer_field p empty_world "success" = Some (VBool true)
  ∧ known (pendingPayments (exec p empty_world).2) "ORDER_9" = true
  ∧ stored_status (exec p empty_world).2 "ORDER_9" = Some (VString "COMPLETED")
  ∧ stored_prop (exec p empty_world).2 "ORDER_9" "customerEmail"
    = Some (VString "mallory@example.com")
  ∧ notifications (trace (exec p empty_world).2) = 1
  ∧ archives (trace (exec p empty_world).2) = 1.
Proof. vm_compute. auto 10. Qed.

(** ** C7: statuses that are missing or not recognised *)

Lemma verifyPhonePePayment_unrecognised env (r : PhonePeStatus) (id : string) (w : World) :
  id ≠ "" →
  known (pendingPayments w) id = true →
  state r ≠ Some "COMPLETED" →
  state r ≠ Some "PENDING" →
  let p := PaymentController.verifyPhonePePayment env (Resolved (Some r)) id in
  code <$> answer p w = Some 200
  ∧ answer_field p w "status" = Some (VString "FAILED")
  ∧ trace (exec p w).2 = trace w ++ [ProviderCall "phonepe.getOrderStatus" id].
Proof.
  intros Hid Hk Hc Hp p. subst p.
  assert (String.eqb id "" = false) as Hid' by (by apply String.eqb_neq).
  known_world w Hk. destruct env as [t m f], r as [[s0|] details]; cbn [state] in Hc, Hp.
  - assert (String.eqb s0 "COMPLETED" = false) as Hc' by (apply String.eqb_neq; congruence).
    assert (String.eqb s0 "PENDING" = false) as Hp' by (apply String.eqb_neq; congruence).
    unfold PaymentController.verifyPhonePePayment.
    split_and!; [unfold answer; run; reflexivity | read_field | run; reflexivity].
  - unfold PaymentController.verifyPhonePePayment.
    split_and!; [unfold answer; run; reflexivity | read_field | run; reflexivity].
Qed.

Lemma verifyCashfreePayment_unrecognised env (r : CashfreeFetch) (id : string) (w : World) :
  id ≠ "" →
  known (pendingPayments w) id = true →
  order_status r ≠ Some "PAID" →
  order_status r ≠ Some "ACTIVE" →
  let p := PaymentController.verifyCashfreePayment env (Resolved (Some r)) id in
  code <$> answer p w = Some 200
  ∧ answer_field p w "status" = Some (VString "FAILED")
  ∧ trace (exec p w).2 = trace w ++ [ProviderCall "cashfree.PGFetchOrder" id].
Proof.
  intros Hid Hk Hc Hp p. subst p.
  assert (String.eqb id "" = false) as Hid' by (by apply String.eqb_neq).
  known_world w Hk. destruct env as [t m f], r as [[s0|]]; cbn [order_status] in Hc, Hp.
  - assert (String.eqb s0 "PAID" = false) as Hc' by (apply String.eqb_neq; congruence).
    assert (String.eqb s0 "ACTIVE" = false) as Hp' by (apply String.eqb_neq; congruence).
    unfold PaymentController.verifyCashfreePayment.
    split_and!; [unfold answer; run; reflexivity | read_field | run; reflexivity].
  - unfold PaymentController.verifyCashfreePayment.
    split_and!; [unfold answer; run; reflexivity | read_field | run; reflexivity].
Qed.

Lemma phonePeCallback_records env (status : option string) (id : string) (w : World) :
  id ≠ "" →
  known (pendingPayments w) id = true →
  let p := PaymentController.phonePeCallback env
             {| query_merchantTransactionId := Some id; query_status := status |} in
  code <$> answer p w = Some 200
  ∧ stored_status (exec p w).2 id = Some (Js.or (Js.field status) (VString "COMPLETED"))
  ∧ trace (exec p w).2 = trace w.
Proof.
  intros Hid Hk p. subst p.
  assert (String.eqb id "" = false) as Hid' by (by apply String.eqb_neq).
  known_world w Hk. unfold PaymentController.phonePeCallback.
  split_and!; [unfold answer; run; reflexivity | run; status_lookup | run; reflexivity].
Qed.

(** C7 (as amended).  For a transaction of [global.pendingPayments]: when a
    verification query returns a payload whose status is missing or is not a
    recognised value, the verification answers 200 with status FAILED,
    nothing is thrown (the only call made is the provider query) and nothing
    is dispatched.  The PhonePe callback translates nothing: it records an
    absent status as COMPLETED and any other status as it comes, and it never
    dispatches. *)
Theorem unrecognised_status_handling (env : Env) (w : World) (id : string) :
  id ≠ "" →
  known (pendingPayments w) id = true →
  (∀ r : PhonePeStatus,
     state r ≠ Some "COMPLETED" →
     state r ≠ Some "PENDING" →
     let p := PaymentController.verifyPhonePePayment env (Resolved (Some r)) id in
     code <$> answer p w = Some 200
     ∧ answer_field p w "status" = Some (VString "FAILED")
     ∧ trace (exec p w).2 = trace w ++ [ProviderCall "phonepe.getOrderStatus" id])
  ∧ (∀ r : CashfreeFetch,
       order_status r ≠ Some "PAID" →
       order_status r ≠ Some "ACTIVE" →
       let p := PaymentController.verifyCashfreePayment env (Resolved (Some r)) id in
       code <$> answer p w = Some 200
       ∧ answer_field p w "status" = Some (VString "FAILED")
       ∧ trace (exec p w).2 = trace w ++ [ProviderCall "cashfree.PGFetchOrder" id])
  ∧ (∀ status : option string,
       let p := PaymentController.phonePeCallback env
                  {| query_merchantTransactionId := Some id; query_status := status |} in
       code <$> answer p w = Some 200
       ∧ stored_status (exec p w).2 id = Some (Js.or (Js.field status) (VString "COMPLETED"))
       ∧ trace (exec p w).2 = trace w).
Proof.
  intros Hid Hk. split_and!.
  - intros r. by apply verifyPhonePePayment_unrecognised.
  - intros r. by apply verifyCashfreePayment_unrecognised.
  - intros status. by apply phonePeCallback_records.
Qed.

Lemma unrecognised_status_handling_witness :
  (∀ r : PhonePeStatus,
     state r ≠ Some "COMPLETED" →
     state r ≠ Some "PENDING" →
     let p := PaymentController.verifyPhonePePayment env_ok (Resolved (Some r)) "CMS_2" in
     code <$> answer p phonepe_world = Some 200
     ∧ answer_field p phonepe_world "status" = Some (VString "FAILED")
     ∧ trace (exec p phonepe_world).2
       = trace phonepe_world ++ [ProviderCall "phonepe.getOrderStatus" "CMS_2"])
  ∧ (∀ r : CashfreeFetch,
       order_status r ≠ Some "PAID" →
       order_status r ≠ Some "ACTIVE" →
       let p := PaymentController.verifyCashfreePayment env_ok (Resolved (Some r)) "CMS_2" in
       code <$> answer p phonepe_world = Some 200
       ∧ answer_field p phonepe_world "status" = Some (VString "FAILED")
       ∧ trace (exec p phonepe_world).2
         = trace phonepe_world ++ [ProviderCall "cashfree.PGFetchOrder" "CMS_2"])
  ∧ (∀ status : option string,
       let p := PaymentController.phonePeCallback env_ok
                  {| query_merchantTransactionId := Some "CMS_2"; query_status := status |} in
       code <$> answer p phonepe_world = Some 200
       ∧ stored_status (exec p phonepe_world).2 "CMS_2"
         = Some (Js.or (Js.field status) (VString "COMPLETED"))
       ∧ trace (exec p phonepe_world).2 = trace phonepe_world).
Proof.
  apply (unrecognised_status_handling env_ok phonepe_world "CMS_2").
  - discriminate.
  - vm_compute. reflexivity.
Defined.

(** C7 (as stated) fails: a PhonePe callback without a [status] parameter
    records the transaction as COMPLETED, not as FAILED. *)
Lemma absent_callback_status_recorded_completed :
  recorded_status callback_without_status = Some (VString "COMPLETED")
  ∧ stored_status phonepe_world "CMS_2" = Some (VString "INITIATED")
  ∧ stored_status (deliver phonepe_world callback_without_status) "CMS_2"
    = Some (VString "COMPLETED").
Proof. vm_compute. auto. Qed.

(** A null answer of [client.getOrderStatus] is written down as UNKNOWN and
    then makes the FAILED branch throw; the handler's [catch] answers 500. *)
Lemma null_status_response_throws :
  let p := PaymentController.verifyPhonePePayment env_ok (Resolved None) "CMS_2" in
  code <$> answer p phonepe_world = Some 500
  ∧ answer_field p phonepe_world "status" = Some (VString "FAILED")
  ∧ stored_status (exec p phonepe_world).2 "CMS_2" = Some (VString "UNKNOWN")
  ∧ trace (exec p phonepe_world).2
    = trace phonepe_world ++ [ProviderCall "phonepe.getOrderStatus" "CMS_2";
                              ConsoleError "PhonePe Verification Error:"].
Proof. vm_compute. auto. Qed.

(** ** C8: the provider query itself fails *)









(** ** C9: validation of initiation requests *)

(** The PhonePe initiation rejects a missing, zero or negative amount before
    it stores anything or calls the provider. *)
Lemma initiatePhonePePayment_rejects_amount env id pay req (w : World) :
  (∀ n, amount req = Some n → (n ≤ 0)%Z) →
  code <$> answer (PaymentController.initiatePhonePePayment env id pay req) w = Some 400
  ∧ (exec (PaymentController.initiatePhonePePayment env id pay req) w).2 = w.
Proof.
  intros Hn. unfold PaymentController.initiatePhonePePayment, answer.
  destruct (amount req) as [n|] eqn:Ha; cbn [number invalidAmount Js.truthy negb orb].
  - specialize (Hn n eq_refl).
    destruct (negb (negb (n =? 0)%Z) || negb (Js.truthy (Js.field (customerPhone req)))
              || negb (Js.truthy (Js.field (customerEmail req)))
              || negb (Js.truthy (Js.field (customerName req)))); [by run|].
    destruct (negb (Js.ten_digits (default "" (customerPhone req)))); [by run|].
    assert ((n <=? 0)%Z = true) as -> by lia. by run.
  - by run.
Qed.

(** C9 (code at the failing input).  The Cashfree initiation has no check
    of the sign of the amount: a request with amount -5 is stored with
    amount -5, the provider is called and the request is answered 200, where
    the PhonePe initiation answers the same request with 400 and stores
    nothing. *)
Theorem cashfree_accepts_negative_amount :
  let createOrder : Outcome (option CashfreeOrder) :=
    Resolved (Some {| order_id := Some "CMS_4"; payment_session_id := Some "session_4" |}) in
  let cashfree := PaymentController.initiateCashfreePayment env_ok "CMS_4" createOrder
                    order_negative in
  let phonepe := PaymentController.initiatePhonePePayment env_ok "CMS_4" (Rejected provider_down)
                   order_negative in
  code <$> answer cashfree empty_world = Some 200
  ∧ stored_prop (exec cashfree empty_world).2 "CMS_4" "amount" = Some (VNumber (-5))
  ∧ stored_status (exec cashfree empty_world).2 "CMS_4" = Some (VString "INITIATED")
  ∧ provider_calls (trace (exec cashfree empty_world).2) = 1
  ∧ code <$> answer phonepe empty_world = Some 400
  ∧ (exec phonepe empty_world).2 = empty_world.
Proof. vm_compute. auto 10. Qed.

(** ** C10: failures of the side effects *)

Lemma side_effects_do_not_reach_caller (m f : Outcome unit) (s : Signal) (w : World) :
  (exec (handler (with_effects m f s)) w).1 = (exec (handler s) w).1
  ∧ pendingPayments (deliver w (with_effects m f s)) = pendingPayments (deliver w s).
Proof.
  destruct w as [st tr].
  destruct s as [env id answer | env query | env id answer | env eventData];
    unfold deliver, with_effects, set_effects, handler; destruct env as [t m0 f0]; cbn [now].
  - unfold PaymentController.verifyPhonePePayment. cbn [Js.truthy].
    destruct (String.eqb id "") eqn:Hid; [run; split; reflexivity|].
    bound_or_not st id Hst;
      [|run; rewrite ?(known_None _ _ Hst); run; split; reflexivity].
    destruct answer as [[[[s0|] details]|]|e]; run; try (split; reflexivity).
    destruct (String.eqb s0 "COMPLETED") eqn:Hc; run.
    + destruct m, f, m0, f0; run; split; reflexivity.
    + destruct (String.eqb s0 "PENDING") eqn:Hp; run; split; reflexivity.
  - unfold PaymentController.phonePeCallback. split; reflexivity.
  - unfold PaymentController.verifyCashfreePayment. cbn [Js.truthy].
    destruct (String.eqb id "") eqn:Hid; [run; split; reflexivity|].
    bound_or_not st id Hst;
      [|run; rewrite ?(known_None _ _ Hst); run; split; reflexivity].
    destruct answer as [[[[s0|]]|]|e]; run; try (split; reflexivity).
    destruct (String.eqb s0 "PAID") eqn:Hc; run.
    + destruct m, f, m0, f0; run; split; reflexivity.
    + destruct (String.eqb s0 "ACTIVE") eqn:Hp; run; split; reflexivity.
  - unfold PaymentController.cashfreeWebhook.
    destruct eventData as [[[id|] status]|]; run; try (split; reflexivity).
    destruct (String.eqb id "") eqn:Hid; run; [split; reflexivity|].
    bound_or_not st id Hst; run; [|split; reflexivity].
    destruct status as [s0|]; run; [|split; reflexivity].
    destruct (String.eqb s0 "PAID") eqn:Hp; run; [|split; reflexivity].
    destruct m, f, m0, f0; run; split; reflexivity.
Qed.

Lemma fires_with_effects (m f : Outcome unit) (s : Signal) (st : gmap string (gmap string Value)) :
  fires st (with_effects m f s) = fires st s.
Proof. destruct s; reflexivity. Qed.

Lemma dispatching_signal_answers_success (m f : Outcome unit) (s : Signal) (w : World) :
  fires (pendingPayments w) s = true →
  answer_field (handler (with_effects m f s)) w "success" = Some (VBool true)
  ∧ (is_poll s = true →
     answer_field (handler (with_effects m f s)) w "status" = Some (VString "SUCCESS"))
  ∧ (∀ e, m = Rejected e →
       ConsoleError "Error sending admin notification email:"
       ∈ trace (deliver w (with_effects m f s)))
  ∧ (∀ e, f = Rejected e →
       ConsoleError "Error storing payment data in Firestore:"
       ∈ trace (deliver w (with_effects m f s))).
Proof.
  intros Hfires. destruct w as [st tr]. cbn [pendingPayments] in Hfires.
  unfold fires in Hfires. apply andb_true_iff in Hfires as [Hs Hk].
  destruct s as [env id answer | env query | env id answer | env eventData];
    cbn [success_signal target] in Hs, Hk; try discriminate.
  - destruct answer as [[[[s0|] details]|]|e0]; try discriminate. cbn in Hs.
    apply andb_true_iff in Hk as [Hid Hk]. cbn in Hid. apply negb_true_iff in Hid.
    apply known_Some in Hk as [o Hst]. rewrite <- (insert_id st id o Hst).
    destruct env as [t m0 f0].
    unfold deliver, with_effects, set_effects, handler, PaymentController.verifyPhonePePayment.
    cbn [now].
    split_and!; [| intros _ | intros e -> | intros e ->].
    + destruct m, f; read_field.
    + destruct m, f; read_field.
    + destruct f; run; logged.
    + destruct m; run; logged.
  - destruct answer as [[[[s0|]]|]|e0]; try discriminate. cbn in Hs.
    apply andb_true_iff in Hk as [Hid Hk]. cbn in Hid. apply negb_true_iff in Hid.
    apply known_Some in Hk as [o Hst]. rewrite <- (insert_id st id o Hst).
    destruct env as [t m0 f0].
    unfold deliver, with_effects, set_effects, handler, PaymentController.verifyCashfreePayment.
    cbn [now].
    split_and!; [| intros _ | intros e -> | intros e ->].
    + destruct m, f; read_field.
    + destruct m, f; read_field.
    + destruct f; run; logged.
    + destruct m; run; logged.
  - destruct eventData as [[[id|] [s0|]]|]; try discriminate. cbn in Hs, Hk.
    apply andb_true_iff in Hk as [Hid Hk]. apply negb_true_iff in Hid.
    apply known_Some in Hk as [o Hst]. rewrite <- (insert_id st id o Hst).
    destruct env as [t m0 f0].
    unfold deliver, with_effects, set_effects, handler, PaymentController.cashfreeWebhook.
    cbn [now].
    split_and!; [| intros Hpoll; discriminate Hpoll | intros e -> | intros e ->].
    + destruct m, f; read_field.
    + destruct f; run; logged.
    + destruct m; run; logged.
Qed.

(** C10.  Whether the mail transport and Firestore succeed or fail has no
    influence on the response a handler gives nor on the payment objects it
    leaves in the store.  When a signal makes its handler dispatch, both side
    effects are attempted, a failure of either is caught and logged with
    [console.error], and the request is still answered as a success (with
    status SUCCESS on a verification). *)
Theorem side_effect_failure_is_contained (m f : Outcome unit) (s : Signal) (w : World) :
  (exec (handler (with_effects m f s)) w).1 = (exec (handler s) w).1
  ∧ pendingPayments (deliver w (with_effects m f s)) = pendingPayments (deliver w s)
  ∧ (fires (pendingPayments w) s = true →
     answer_field (handler (with_effects m f s)) w "success" = Some (VBool true)
     ∧ (is_poll s = true →
        answer_field (handler (with_effects m f s)) w "status" = Some (VString "SUCCESS"))
     ∧ notifications (trace (deliver w (with_effects m f s))) = notifications (trace w) + 1
     ∧ archives (trace (deliver w (with_effects m f s))) = archives (trace w) + 1
     ∧ (∀ e, m = Rejected e →
          ConsoleError "Error sending admin notification email:"
          ∈ trace (deliver w (with_effects m f s)))
     ∧ (∀ e, f = Rejected e →
          ConsoleError "Error storing payment data in Firestore:"
          ∈ trace (deliver w (with_effects m f s)))).
Proof.
  destruct (side_effects_do_not_reach_caller m f s w) as [Hr Hs].
  split_and!; [assumption | assumption |].
  intros Hfires.
  destruct (dispatching_signal_answers_success m f s w Hfires) as (H1 & H2 & H3 & H4).
  destruct (deliver_effect w (with_effects m f s)) as (_ & Hn & Ha).
  rewrite fires_with_effects, Hfires in Hn, Ha.
  split_and!; assumption.
Qed.

Lemma side_effect_failure_is_contained_witness :
  let m := mail env_mail_down in
  let f := firestore env_mail_down in
  let s := cashfree_paid_poll in
  let w := cashfree_world in
  (exec (handler (with_effects m f s)) w).1 = (exec (handler s) w).1
  ∧ pendingPayments (deliver w (with_effects m f s)) = pendingPayments (deliver w s)
  ∧ answer_field (handler (with_effects m f s)) w "success" = Some (VBool true)
  ∧ answer_field (handler (with_effects m f s)) w "status" = Some (VString "SUCCESS")
  ∧ notifications (trace (deliver w (with_effects m f s))) = notifications (trace w) + 1
  ∧ archives (trace (deliver w (with_effects m f s))) = archives (trace w) + 1
  ∧ ConsoleError "Error sending admin notification email:"
    ∈ trace (deliver w (with_effects m f s))
  ∧ ConsoleError "Error storing payment data in Firestore:"
    ∈ trace (deliver w (with_effects m f s)).
Proof.
  intros m f s w.
  destruct (side_effect_failure_is_contained m f s w) as (H1 & H2 & H3).
  destruct H3 as (H3 & H4 & H5 & H6 & H7 & H8); [vm_compute; reflexivity|].
  split_and!; [exact H1 | exact H2 | exact H3 | exact (H4 eq_refl) | exact H5 | exact H6
              | exact (H7 _ eq_refl) | exact (H8 _ eq_refl)].
Defined.

(** ** Further properties of the handlers *)

(** X1.  Every exported handler answers the request: whatever the request
    carries and whatever the provider, the mail transport and Firestore
    answer, the handler returns a response and lets no exception escape. *)
Theorem every_request_is_answered (r : Request) (w : World) :
  ∃ response, (exec (serve r) w).1 = Resolved response.
Proof.
  destruct r as [env id pay req | env id createOrder req | env token createOrder req
                | env token capture orderID | s]; cbn [serve];
    [ unfold PaymentController.initiatePhonePePayment
    | unfold PaymentController.initiateCashfreePayment
    | unfold PayPalController.initiatePayPalPayment
    | unfold PayPalController.capturePayPalPayment
    | destruct s; cbn [handler];
      unfold PaymentController.verifyPhonePePayment, PaymentController.phonePeCallback,
             PaymentController.verifyCashfreePayment, PaymentController.cashfreeWebhook ];
    rewrite exec_try_catch;
    match goal with |- context [exec ?p w] => destruct (exec p w) as [[a|e] w'] end;
    cbn; eauto.
Qed.

(** *** What a signal writes *)

Ltac same_store :=
  rewrite ?alter_insert_eq;
  cbn [assignments Js.spread foldl fst snd now state order_status event_order_status
       query_status Js.field Js.is_string];
  rewrite ?String.eqb_refl;
  repeat match goal with H : String.eqb _ _ = _ |- _ => rewrite H end;
  try reflexivity.

Lemma deliver_store (w : World) (s : Signal) :
  pendingPayments (deliver w s)
  = match target s with
    | Some id =>
        if Js.truthy (VString id) && known (pendingPayments w) id
        then alter (λ o, Js.spread o (assignments s)) id (pendingPayments w)
        else pendingPayments w
    | None => pendingPayments w
    end.
Proof.
  destruct w as [st tr]. cbn [pendingPayments].
  destruct s as [env id answer | env query | env id answer | env eventData];
    unfold deliver, handler, target.
  - unfold PaymentController.verifyPhonePePayment. cbn [Js.truthy].
    destruct (String.eqb id "") eqn:Hid; [run; reflexivity|].
    bound_or_not st id Hst; [|run; rewrite ?(known_None _ _ Hst); run; reflexivity].
    destruct env as [t m f].
    destruct answer as [[[[s0|] details]|]|e]; run; same_store.
    destruct (String.eqb s0 "COMPLETED") eqn:Hc; run.
    + destruct m, f; run; same_store.
    + destruct (String.eqb s0 "PENDING") eqn:Hp; run; same_store.
  - unfold PaymentController.phonePeCallback.
    destruct query as [[id|] status]; run; [|reflexivity].
    destruct (String.eqb id "") eqn:Hid; run; [reflexivity|].
    bound_or_not st id Hst; run; same_store.
  - unfold PaymentController.verifyCashfreePayment. cbn [Js.truthy].
    destruct (String.eqb id "") eqn:Hid; [run; reflexivity|].
    bound_or_not st id Hst; [|run; rewrite ?(known_None _ _ Hst); run; reflexivity].
    destruct env as [t m f].
    destruct answer as [[[[s0|]]|]|e]; run; same_store.
    destruct (String.eqb s0 "PAID") eqn:Hc; run.
    + destruct m, f; run; same_store.
    + destruct (String.eqb s0 "ACTIVE") eqn:Hp; run; same_store.
  - unfold PaymentController.cashfreeWebhook.
    destruct eventData as [[[id|] status]|]; run; try reflexivity.
    cbn [mbind option_bind event_order_id].
    destruct (String.eqb id "") eqn:Hid; run; [reflexivity|].
    bound_or_not st id Hst; run; [|reflexivity].
    destruct env as [t m f].
    destruct status as [s0|]; run; same_store.
    destruct (String.eqb s0 "PAID") eqn:Hp; run; same_store.
    destruct m, f; run; same_store.
Qed.

Lemma spread_lookup (l : list (string * Value)) (o : gmap string Value) (key : string) :
  Js.spread o l !! key = lookup_after (o !! key) l key.
Proof.
  revert o. induction l as [|[k v] l IH]; intros o; [reflexivity|].
  unfold Js.spread, lookup_after in *. cbn [foldl fst snd].
  rewrite IH, lookup_insert. reflexivity.
Qed.

Lemma lookup_after_cases (l : list (string * Value)) (key : string) :
  (∀ a, lookup_after a l key = a) ∨ (∃ v, ∀ a, lookup_after a l key = Some v).
Proof.
  induction l as [|[k v] l IH]; [left; reflexivity|].
  unfold lookup_after in *. cbn [foldl fst snd].
  destruct IH as [IH | [v' IH]].
  - destruct (decide (k = key)) as [->|Hne].
    + right. exists v. intros a. by rewrite IH.
    + left. intros a. by rewrite IH.
  - right. exists v'. intros a. by rewrite IH.
Qed.

Lemma lookup_after_notin (l : list (string * Value)) (key : string) (a : option Value) :
  key ∉ l.*1 → lookup_after a l key = a.
Proof.
  revert a. induction l as [|[k v] l IH]; intros a Hnotin; [reflexivity|].
  unfold lookup_after in *. cbn [foldl fst snd].
  cbn in Hnotin. apply not_elem_of_cons in Hnotin as [Hne Hnotin].
  rewrite decide_False by congruence. by apply IH.
Qed.

Lemma assignments_keys (s : Signal) : (assignments s).*1 ⊆ signal_keys.
Proof.
  destruct s as [env id [[r|]|e] | env query | env id [[r|]|e] | env [ev|]];
    apply (bool_decide_unpack _); vm_compute; exact I.
Qed.

(** X3.  On a server whose [Object.prototype] is as Node made it, a status
    signal that names an id other than the names every object inherits from
    it touches at most the one payment
    object it names: it never adds or removes an entry of
    [global.pendingPayments], and every entry stored under another id is left
    exactly as it was.  (A signal for [__proto__] or another inherited name
    is outside this statement: the handlers find
    [global.pendingPayments[id]] truthy for it and write on the inherited
    object.) *)
Theorem signal_touches_only_its_transaction (w : World) (s : Signal) (other : string) :
  inherited_target (target s) = false →
  target s ≠ Some other →
  dom (pendingPayments (deliver w s)) = dom (pendingPayments w)
  ∧ pendingPayments (deliver w s) !! other = pendingPayments w !! other.
Proof.
  intros _ Hother. split; [apply deliver_effect|].
  rewrite deliver_store. destruct (target s) as [id|]; [|reflexivity].
  destruct (Js.truthy (VString id) && known (pendingPayments w) id); [|reflexivity].
  apply lookup_alter_ne. congruence.
Qed.

Lemma signal_touches_only_its_transaction_witness :
  dom (pendingPayments (deliver cashfree_world cashfree_paid_poll))
  = dom (pendingPayments cashfree_world)
  ∧ pendingPayments (deliver cashfree_world cashfree_paid_poll) !! "CMS_7"
    = pendingPayments cashfree_world !! "CMS_7".
Proof.
  apply (signal_touches_only_its_transaction cashfree_world cashfree_paid_poll "CMS_7").
  - vm_compute. reflexivity.
  - discriminate.
Defined.

(** X4.  A status signal assigns only [status], [verifiedAt],
    [paymentDetails], [updatedAt] and [webhookData]: every other property of
    every stored payment object (the id, the amount, the customer and plan
    fields, [createdAt], the provider handle) reads after the signal as it
    read before. *)
Theorem signal_preserves_other_properties (w : World) (s : Signal) (id key : string) :
  key ∉ signal_keys →
  stored_prop (deliver w s) id key = stored_prop w id key.
Proof.
  intros Hkey. unfold stored_prop. rewrite deliver_store.
  destruct (target s) as [id'|]; [|reflexivity].
  destruct (Js.truthy (VString id') && known (pendingPayments w) id'); [|reflexivity].
  rewrite lookup_alter. case_decide as Hid; [subst id'|reflexivity].
  destruct (pendingPayments w !! id) as [o|]; [|reflexivity].
  cbn [fmap option_fmap option_map mbind option_bind].
  rewrite spread_lookup. apply lookup_after_notin.
  intros Hin. apply Hkey. by apply (assignments_keys s).
Qed.

Lemma signal_preserves_other_properties_witness :
  stored_prop (deliver cashfree_world cashfree_paid_poll) "CMS_1" "amount"
  = stored_prop cashfree_world "CMS_1" "amount".
Proof.
  apply (signal_preserves_other_properties cashfree_world cashfree_paid_poll "CMS_1" "amount").
  apply (bool_decide_unpack _). vm_compute. exact I.
Defined.

Lemma known_alter (st : gmap string (gmap string Value)) (f : gmap string Value → gmap string Value)
    (id id' : string) :
  known (alter f id st) id' = known st id'.
Proof.
  unfold known. rewrite lookup_alter. case_decide; [subst|reflexivity].
  by destruct (st !! id').
Qed.

Lemma lookup_after_in (l : list (string * Value)) (key : string) :
  key ∈ l.*1 → ∃ v, ∀ a, lookup_after a l key = Some v.
Proof.
  intros Hin. destruct (lookup_after_cases l key) as [Hsame | Hset]; [|exact Hset].
  exfalso. induction l as [|[k v] l IH]; [by apply elem_of_nil in Hin|].
  cbn in Hin. apply elem_of_cons in Hin as [->|Hin].
  - destruct (lookup_after_cases l k) as [Hl | [v' Hl]].
    + specialize (Hsame None). unfold lookup_after in *. cbn [foldl fst snd] in Hsame.
      rewrite decide_True in Hsame by reflexivity. by rewrite Hl in Hsame.
    + specialize (Hsame None). unfold lookup_after in *. cbn [foldl fst snd] in Hsame.
      by rewrite Hl in Hsame.
  - apply IH; [exact Hin|]. intros a.
    destruct (lookup_after_cases l key) as [Hl | [v' Hl]]; [apply Hl|].
    pose proof (Hsame None) as H1. unfold lookup_after in *. cbn [foldl fst snd] in H1.
    by rewrite Hl in H1.
Qed.

Lemma spread_over (l1 l2 : list (string * Value)) (o : gmap string Value) :
  l1.*1 = l2.*1 → Js.spread (Js.spread o l1) l2 = Js.spread o l2.
Proof.
  intros Hkeys. apply map_eq. intros key. rewrite !spread_lookup.
  destruct (decide (key ∈ l2.*1)) as [Hin | Hnotin].
  - destruct (lookup_after_in l2 key Hin) as [v Hv]. by rewrite !Hv.
  - rewrite !(lookup_after_notin l2) by assumption.
    apply lookup_after_notin. by rewrite Hkeys.
Qed.

Lemma with_env_target (env : Env) (s : Signal) : target (with_env env s) = target s.
Proof. by destruct s. Qed.

Lemma with_env_keys (env : Env) (s : Signal) :
  (assignments s).*1 = (assignments (with_env env s)).*1.
Proof. by destruct s as [? ? [[?|]|?] | ? ? | ? ? [[?|]|?] | ? [?|]]. Qed.

Lemma with_env_stamps (env : Env) (s : Signal) (key : string) (a : option Value) :
  key ≠ "verifiedAt" → key ≠ "updatedAt" →
  lookup_after a (assignments (with_env env s)) key = lookup_after a (assignments s) key.
Proof.
  intros Hv Hu.
  destruct s as [? ? [[?|]|?] | ? ? | ? ? [[?|]|?] | ? [?|]];
    unfold lookup_after; cbn [with_env assignments foldl fst snd];
    rewrite ?(decide_False (P := "verifiedAt" = key)) by congruence;
    rewrite ?(decide_False (P := "updatedAt" = key)) by congruence;
    reflexivity.
Qed.

(** X5.  A status signal delivered again (the same payload and, for a
    poll, the same provider answer, handled at another time and with other
    answers of the mail transport and of Firestore) leaves [global.pendingPayments] exactly as if only the second
    delivery had been handled; compared with the store after the first
    delivery, only [verifiedAt] and [updatedAt] can read differently.  The
    side effects are dispatched again all the same. *)
Theorem redelivery_leaves_store (w : World) (s : Signal) (env : Env) (id key : string) :
  key ≠ "verifiedAt" → key ≠ "updatedAt" →
  pendingPayments (deliver (deliver w s) (with_env env s))
  = pendingPayments (deliver w (with_env env s))
  ∧ stored_prop (deliver (deliver w s) (with_env env s)) id key
    = stored_prop (deliver w s) id key.
Proof.
  intros Hv Hu.
  assert (pendingPayments (deliver (deliver w s) (with_env env s))
          = pendingPayments (deliver w (with_env env s))) as Hstore.
  { rewrite (deliver_store (deliver w s)), (deliver_store w (with_env env s)),
      (deliver_store w s), with_env_target.
    destruct (target s) as [id'|]; [|reflexivity].
    destruct (Js.truthy (VString id') && known (pendingPayments w) id') eqn:Hcond;
      [|by rewrite Hcond].
    rewrite known_alter, Hcond, alter_alter_eq.
    apply alter_ext. intros o _. cbn. apply spread_over, with_env_keys. }
  split; [exact Hstore|].
  unfold stored_prop. rewrite Hstore, (deliver_store w (with_env env s)), (deliver_store w s),
    with_env_target.
  destruct (target s) as [id'|]; [|reflexivity].
  destruct (Js.truthy (VString id') && known (pendingPayments w) id'); [|reflexivity].
  rewrite !lookup_alter. case_decide as Hid; [subst id'|reflexivity].
  destruct (pendingPayments w !! id) as [o|]; [|reflexivity].
  cbn [fmap option_fmap option_map mbind option_bind].
  rewrite !spread_lookup. by apply with_env_stamps.
Qed.

Lemma redelivery_leaves_store_witness :
  pendingPayments (deliver (deliver cashfree_world cashfree_paid_poll)
                     (with_env env_later cashfree_paid_poll))
  = pendingPayments (deliver cashfree_world (with_env env_later cashfree_paid_poll))
  ∧ stored_prop (deliver (deliver cashfree_world cashfree_paid_poll)
                   (with_env env_later cashfree_paid_poll)) "CMS_1" "status"
    = stored_prop (deliver cashfree_world cashfree_paid_poll) "CMS_1" "status".
Proof.
  apply (redelivery_leaves_store cashfree_world cashfree_paid_poll env_later
           "CMS_1" "status").
  - discriminate.
  - discriminate.
Defined.

(** *** Initiation *)

Lemma newPaymentInfo_fields env id req :
  newPaymentInfo env id req !! "merchantTransactionId" = Some (VString id)
  ∧ newPaymentInfo env id req !! "amount" = Some (number (amount req))
  ∧ newPaymentInfo env id req !! "customerPhone" = Some (Js.field (customerPhone req))
  ∧ newPaymentInfo env id req !! "status" = Some (VString "PENDING").
Proof.
  unfold newPaymentInfo, Js.object. cbn [list_to_map fold_right fst snd].
  split_and!;
    repeat first [ rewrite lookup_insert_eq | rewrite lookup_insert_ne by discriminate ];
    reflexivity.
Qed.

Ltac stored_field H :=
  unfold stored_prop, stored_status; cbn [pendingPayments];
  rewrite ?lookup_insert_eq; cbn [mbind option_bind];
  repeat first [ rewrite lookup_insert_eq | rewrite lookup_insert_ne by discriminate ];
  try exact H; try reflexivity.

Lemma phonepe_accepts_guards (req : InitiationBody) :
  phonepe_accepts req
  = negb ((negb (Js.truthy (number (amount req)))
           || negb (Js.truthy (Js.field (customerPhone req)))
           || negb (Js.truthy (Js.field (customerEmail req)))
           || negb (Js.truthy (Js.field (customerName req))))
          || negb (Js.ten_digits (default "" (customerPhone req)))
          || invalidAmount (amount req)).
Proof.
  unfold phonepe_accepts.
  destruct (amount req) as [n|], (customerPhone req) as [phone|],
    (customerEmail req) as [email|], (customerName req) as [name|];
    cbn [number Js.field invalidAmount from_option Datatypes.id Js.truthy negb orb andb];
    rewrite ?orb_true_r; try reflexivity.
  destruct (Js.ten_digits phone) eqn:Hd.
  - rewrite (ten_digits_nonempty _ Hd).
    destruct (n =? 0)%Z eqn:Hz, (0 <? n)%Z eqn:Hpos, (n <=? 0)%Z eqn:Hle; try lia;
      destruct (String.eqb email ""), (String.eqb name ""); reflexivity.
  - destruct (0 <? n)%Z, (n =? 0)%Z, (String.eqb phone ""), (String.eqb email ""),
      (String.eqb name ""); reflexivity.
Qed.

(** X6.  For a request with a body, whose amount is absent or an
    integral number and whose other fields are absent or strings:
    [initiatePhonePePayment] stores a
    payment object when the amount is positive, the phone has exactly ten
    digits and the name and email are non-empty, and the object carries that
    amount and that phone; PhonePe is then called, unless
    [encodeURIComponent(customerName)] throws, which happens after the
    object is stored.  Every other such request is answered 400 with the
    store untouched and no provider call. *)
Theorem phonepe_initiation_validation env (id : string) pay (req : InitiationBody) (w : World) :
  let p := PaymentController.initiatePhonePePayment env id pay req in
  if phonepe_accepts req
  then ∃ n phone,
         amount req = Some n ∧ (0 < n)%Z
         ∧ customerPhone req = Some phone ∧ Js.ten_digits phone = true
         ∧ stored_prop (exec p w).2 id "amount" = Some (VNumber n)
         ∧ stored_prop (exec p w).2 id "customerPhone" = Some (VString phone)
         ∧ provider_calls (trace (exec p w).2)
           = provider_calls (trace w) + (if encodable req then 1 else 0)
  else code <$> answer p w = Some 400 ∧ (exec p w).2 = w.
Proof.
  intros p. subst p. destruct w as [st tr].
  destruct (newPaymentInfo_fields env id req) as (_ & Hamount & Hphone & _).
  rewrite phonepe_accepts_guards.
  unfold PaymentController.initiatePhonePePayment, answer, encodable, encodeURIComponent.
  destruct (negb (Js.truthy (number (amount req)))
            || negb (Js.truthy (Js.field (customerPhone req)))
            || negb (Js.truthy (Js.field (customerEmail req)))
            || negb (Js.truthy (Js.field (customerName req)))) eqn:G1; [by run|].
  destruct (negb (Js.ten_digits (default "" (customerPhone req)))) eqn:G2; [by run|].
  destruct (invalidAmount (amount req)) eqn:G3; [by run|].
  cbn [negb orb].
  destruct (amount req) as [n|]; [|discriminate G3].
  destruct (customerPhone req) as [phone|]; [|discriminate G2].
  cbn in G2, G3, Hamount, Hphone. apply negb_false_iff in G2.
  exists n, phone. split_and!; try reflexivity; [lia | assumption | | | ];
    (destruct (Js.well_formed (Js.render (Js.field (customerName req))));
     [destruct pay as [[r|]|e]; run;
      [destruct (redirectUrl r) as [h|]; run; [destruct (String.eqb h "") eqn:Hh; run|]| |]
     |run]).
  all: first [solve [stored_field Hamount] | solve [stored_field Hphone] | solve [count]].
Qed.

Lemma has_required_fields_guard (req : InitiationBody) :
  has_required_fields req
  = negb (negb (Js.truthy (number (amount req)))
          || negb (Js.truthy (Js.field (customerEmail req)))
          || negb (Js.truthy (Js.field (customerName req)))).
Proof.
  unfold has_required_fields.
  destruct (amount req) as [n|], (customerEmail req) as [email|],
    (customerName req) as [name|];
    cbn [number Js.field Js.truthy negb orb andb]; rewrite ?orb_true_r; try reflexivity.
  destruct (n =? 0)%Z, (String.eqb email ""), (String.eqb name ""); reflexivity.
Qed.

(** X7.  For a request with a body, whose amount is absent or an
    integral number and whose other fields are absent or strings:
    [initiateCashfreePayment] goes past
    its validation when the amount is not zero and the name and email are
    non-empty; the sign of the amount and the phone are not looked at.  It
    then stores a payment object carrying the amount and the phone as sent
    and calls Cashfree, unless [encodeURIComponent(customerName)] throws,
    which happens before anything is stored: the request is then answered
    500.  Every other such request is answered 400; in both cases the store
    is untouched and no provider is called. *)
Theorem cashfree_initiation_validation env (id : string) createOrder (req : InitiationBody)
    (w : World) :
  let p := PaymentController.initiateCashfreePayment env id createOrder req in
  if has_required_fields req
  then
    if encodable req
    then ∃ n,
           amount req = Some n ∧ n ≠ 0%Z
           ∧ stored_prop (exec p w).2 id "amount" = Some (VNumber n)
           ∧ stored_prop (exec p w).2 id "customerPhone" = Some (Js.field (customerPhone req))
           ∧ provider_calls (trace (exec p w).2) = provider_calls (trace w) + 1
    else code <$> answer p w = Some 500
         ∧ pendingPayments (exec p w).2 = pendingPayments w
         ∧ provider_calls (trace (exec p w).2) = provider_calls (trace w)
  else code <$> answer p w = Some 400 ∧ (exec p w).2 = w.
Proof.
  intros p. subst p. destruct w as [st tr].
  destruct (newPaymentInfo_fields env id req) as (_ & Hamount & Hphone & _).
  rewrite has_required_fields_guard.
  unfold PaymentController.initiateCashfreePayment, answer, encodable, encodeURIComponent.
  destruct (negb (Js.truthy (number (amount req)))
            || negb (Js.truthy (Js.field (customerEmail req)))
            || negb (Js.truthy (Js.field (customerName req)))) eqn:G1; [by run|].
  cbn [negb].
  destruct (Js.well_formed (Js.render (Js.field (customerName req)))); [|run; count].
  destruct (amount req) as [n|]; [|discriminate G1].
  cbn in G1, Hamount.
  exists n. split_and!; try reflexivity.
  - destruct (n =? 0)%Z eqn:Hz; [discriminate G1 | lia].
  - destruct createOrder as [[r|]|e]; run;
      [destruct (payment_session_id r) as [h|]; run; [destruct (String.eqb h "") eqn:Hh; run|]| |];
      stored_field Hamount.
  - destruct createOrder as [[r|]|e]; run;
      [destruct (payment_session_id r) as [h|]; run; [destruct (String.eqb h "") eqn:Hh; run|]| |];
      stored_field Hphone.
  - destruct createOrder as [[r|]|e]; run;
      [destruct (payment_session_id r) as [h|]; run; [destruct (String.eqb h "") eqn:Hh; run|]| |];
      count.
Qed.

(** X8.  [initiatePayPalPayment] writes to [global.pendingPayments] only
    after PayPal has created the order and returned an approval link: then
    it stores one payment object, in status PENDING, under PayPal's order id
    and answers 200 with that id.  When a required field is missing, a
    PayPal call fails or the order has no approval link, the store is left as
    it was.  It never dispatches. *)
Theorem paypal_initiation_stores_after_order env token createOrder (req : InitiationBody)
    (w : World) :
  let p := PayPalController.initiatePayPalPayment env token createOrder req in
  notifications (trace (exec p w).2) = notifications (trace w)
  ∧ archives (trace (exec p w).2) = archives (trace w)
  ∧ match paypal_order_created token createOrder req with
    | Some order =>
        pendingPayments (exec p w).2
        = <[paypal_id order := newPaymentInfo env (paypal_id order) req]> (pendingPayments w)
        ∧ stored_status (exec p w).2 (paypal_id order) = Some (VString "PENDING")
        ∧ code <$> answer p w = Some 200
        ∧ answer_field p w "orderId" = Some (VString (paypal_id order))
    | None =>
        pendingPayments (exec p w).2 = pendingPayments w
        ∧ code <$> answer p w ≠ Some 200
    end.
Proof.
  intros p. subst p. destruct w as [st tr].
  destruct (newPaymentInfo_fields env (match createOrder with
                                       | Resolved o => paypal_id o
                                       | Rejected _ => ""
                                       end) req) as (_ & _ & _ & Hstatus).
  unfold paypal_order_created. rewrite has_required_fields_guard.
  unfold PayPalController.initiatePayPalPayment, answer_field, answer.
  destruct (negb (Js.truthy (number (amount req)))
            || negb (Js.truthy (Js.field (customerEmail req)))
            || negb (Js.truthy (Js.field (customerName req)))) eqn:G1;
    cbn [negb]; [run; count; intros Hcode; injection Hcode as Hcode; lia|].
  destruct token as [[]|e1]; [|run; count; intros Hcode; injection Hcode as Hcode; lia].
  destruct createOrder as [[oid [link|]]|e2]; cbn [approve_link paypal_id] in *;
    [|run; cbn [approve_link]; run; count; intros Hcode; injection Hcode as Hcode; lia
     |run; count; intros Hcode; injection Hcode as Hcode; lia].
  run. cbn [approve_link paypal_id]. run. split_and!; [count | count | reflexivity | stored_field Hstatus | reflexivity |].
  cbn [mbind option_bind body json Js.object list_to_map fold_right fst snd].
  by rewrite lookup_insert_ne, lookup_insert_eq.
Qed.







(** *** What is dispatched *)

Lemma or_same (v : Value) : Js.or v v = v.
Proof. unfold Js.or. by destruct (Js.truthy v). Qed.

Lemma prop_insert_ne (o : gmap string Value) (k key : string) (v : Value) :
  k ≠ key → Js.prop (<[k := v]> o) key = Js.prop o key.
Proof. intros Hne. unfold Js.prop. by rewrite lookup_insert_ne. Qed.

Lemma prop_insert_eq (o : gmap string Value) (key : string) (v : Value) :
  Js.prop (<[key := v]> o) key = v.
Proof. unfold Js.prop. by rewrite lookup_insert_eq. Qed.

Ltac props :=
  repeat first [ rewrite prop_insert_eq | rewrite prop_insert_ne by discriminate ].

Lemma dispatched_mail (o : gmap string Value) (s1 s2 s3 : Value) (k2 k3 : string) :
  k2 ∈ signal_keys → k3 ∈ signal_keys →
  mailDetails (<[k3 := s3]> (<[k2 := s2]> (<["status" := s1]> o))) = mailDetails o.
Proof.
  intros H2 H3. unfold mailDetails.
  assert (∀ key, key ∉ signal_keys →
            Js.prop (<[k3 := s3]> (<[k2 := s2]> (<["status" := s1]> o))) key = Js.prop o key)
    as Hprop.
  { intros key Hkey.
    rewrite !prop_insert_ne; [reflexivity | ..]; intros Heq; apply Hkey; rewrite <- Heq;
      first [ assumption | apply (bool_decide_unpack _); vm_compute; exact I ]. }
  rewrite !Hprop; [reflexivity | ..]; apply (bool_decide_unpack _); vm_compute; exact I.
Qed.

Lemma dispatched_doc (env : Env) (method : string) (o : gmap string Value) (s1 s2 s3 : Value)
    (k2 k3 : string) :
  k2 ∈ signal_keys → k3 ∈ signal_keys → String.eqb method "" = false →
  paymentDoc env
    (Js.spread (<[k3 := s3]> (<[k2 := s2]> (<["status" := s1]> o)))
       [("paymentMethod", VString method); ("status", VString "COMPLETED");
        ("updatedAt", VString (now env))])
  = archived_doc (now env) method o.
Proof.
  intros H2 H3 Hm. unfold paymentDoc, archived_doc, Js.spread. cbn [foldl fst snd].
  generalize (now env). intros t.
  assert (∀ key, key ∉ "paymentMethod" :: signal_keys →
            Js.prop (<["updatedAt" := VString t]>
                       (<["status" := VString "COMPLETED"]>
                          (<["paymentMethod" := VString method]>
                             (<[k3 := s3]> (<[k2 := s2]> (<["status" := s1]> o)))))) key
            = Js.prop o key) as Hprop.
  { intros key Hkey.
    rewrite !prop_insert_ne; [reflexivity | ..]; intros Heq; apply Hkey; rewrite <- Heq;
      first [ by right | apply (bool_decide_unpack _); vm_compute; exact I ]. }
  rewrite (Hprop "customerName"), (Hprop "customerEmail"), (Hprop "customerPhone"),
    (Hprop "merchantTransactionId"), (Hprop "amount"), (Hprop "createdAt"),
    (Hprop "ecommPlan"), (Hprop "hostingPlan")
    by (apply (bool_decide_unpack _); vm_compute; exact I).
  props. rewrite or_same. unfold Js.or at 6 7. cbn [Js.truthy]. rewrite Hm. reflexivity.
Qed.

Lemma dispatched_id (t : Value) (method : string) (o : gmap string Value) (s1 s2 s3 : Value)
    (k2 k3 : string) :
  k2 ∈ signal_keys → k3 ∈ signal_keys →
  Js.prop
    (Js.spread (<[k3 := s3]> (<[k2 := s2]> (<["status" := s1]> o)))
       [("paymentMethod", VString method); ("status", VString "COMPLETED"); ("updatedAt", t)])
    "merchantTransactionId"
  = Js.prop o "merchantTransactionId".
Proof.
  intros H2 H3. unfold Js.spread. cbn [foldl fst snd]. props.
  assert ("merchantTransactionId" ∉ signal_keys) as Hkey
    by (apply (bool_decide_unpack _); vm_compute; exact I).
  rewrite !prop_insert_ne; [reflexivity | ..]; intros Heq;
    first [ discriminate Heq | apply Hkey; by rewrite <- Heq ].
Qed.

Ltac in_trace :=
  cbn [pendingPayments trace];
  repeat first
    [ apply list_elem_of_singleton; reflexivity
    | apply elem_of_app; right; apply list_elem_of_singleton; reflexivity
    | apply elem_of_app; left ].

Ltac key_in := apply (bool_decide_unpack _); vm_compute; exact I.

(** X10.  When a status signal makes its handler dispatch, the notification
    carries the customer, amount and plan fields of the payment object as
    they were stored before the signal, and the document written to
    Firestore, under the object's own [merchantTransactionId], carries the
    same fields with status COMPLETED and the provider as payment method,
    whatever status string the signal itself recorded in memory. *)
Theorem dispatch_carries_stored_data (w : World) (s : Signal) (id : string)
    (o : gmap string Value) :
  fires (pendingPayments w) s = true →
  target s = Some id →
  pendingPayments w !! id = Some o →
  SendMail (mailDetails o) ∈ trace (deliver w s)
  ∧ FirestoreSet (Js.prop o "merchantTransactionId")
      (archived_doc (now (signal_env s)) (signal_method s) o) ∈ trace (deliver w s).
Proof.
  intros Hfires Ht Hst. destruct w as [st tr]. cbn [pendingPayments] in Hfires, Hst.
  unfold fires in Hfires. rewrite Ht in Hfires.
  apply andb_true_iff in Hfires as [Hs Hk]. apply andb_true_iff in Hk as [Hid _].
  cbn in Hid. apply negb_true_iff in Hid.
  rewrite <- (insert_id st id o Hst).
  destruct s as [env id' answer | env query | env id' answer | env eventData];
    cbn [success_signal target] in Hs, Ht; try discriminate.
  - injection Ht as ->. destruct answer as [[[[s0|] details]|]|e0]; try discriminate.
    cbn in Hs.
    unfold deliver, handler, PaymentController.verifyPhonePePayment.
    cbn [signal_env signal_method].
    rewrite <- (dispatched_doc env "phonepe" o
                  (Js.or (VString s0) (VString "UNKNOWN")) (VString (now env))
                  (VObject (BPhonePeStatus {| state := Some s0; paymentDetails := details |}))
                  "verifiedAt" "paymentDetails") by (key_in || reflexivity).
    rewrite <- (dispatched_mail o
                  (Js.or (VString s0) (VString "UNKNOWN")) (VString (now env))
                  (VObject (BPhonePeStatus {| state := Some s0; paymentDetails := details |}))
                  "verifiedAt" "paymentDetails") by key_in.
    destruct env as [t m f].
    destruct m, f; run; rewrite dispatched_id by key_in; split; in_trace.
  - injection Ht as ->. destruct answer as [[[[s0|]]|]|e0]; try discriminate.
    cbn in Hs.
    unfold deliver, handler, PaymentController.verifyCashfreePayment.
    cbn [signal_env signal_method].
    rewrite <- (dispatched_doc env "cashfree" o
                  (VString s0) (VString (now env))
                  (VObject (BCashfreeFetch {| order_status := Some s0 |}))
                  "verifiedAt" "paymentDetails") by (key_in || reflexivity).
    rewrite <- (dispatched_mail o
                  (VString s0) (VString (now env))
                  (VObject (BCashfreeFetch {| order_status := Some s0 |}))
                  "verifiedAt" "paymentDetails") by key_in.
    destruct env as [t m f].
    destruct m, f; run; rewrite dispatched_id by key_in; split; in_trace.
  - destruct eventData as [[[oid|] [s0|]]|]; try discriminate.
    cbn in Ht, Hs. injection Ht as ->.
    unfold deliver, handler, PaymentController.cashfreeWebhook.
    cbn [signal_env signal_method].
    rewrite <- (dispatched_doc env "cashfree" o
                  (VString "COMPLETED") (VString (now env))
                  (VObject (BCashfreeEvent {| event_order_id := Some id;
                                              event_order_status := Some s0 |}))
                  "updatedAt" "webhookData") by (key_in || reflexivity).
    rewrite <- (dispatched_mail o
                  (VString "COMPLETED") (VString (now env))
                  (VObject (BCashfreeEvent {| event_order_id := Some id;
                                              event_order_status := Some s0 |}))
                  "updatedAt" "webhookData") by key_in.
    destruct env as [t m f].
    destruct m, f; run; rewrite dispatched_id by key_in; split; in_trace.
Qed.

Lemma dispatch_carries_stored_data_witness :
  let o := newPaymentInfo env_ok "CMS_1" order_500 in
  let w := {| pendingPayments := {["CMS_1" := o]}; trace := [] |} in
  SendMail (mailDetails o) ∈ trace (deliver w cashfree_paid_poll)
  ∧ FirestoreSet (Js.prop o "merchantTransactionId")
      (archived_doc (now (signal_env cashfree_paid_poll)) (signal_method cashfree_paid_poll) o)
    ∈ trace (deliver w cashfree_paid_poll).
Proof.
  intros o w.
  apply (dispatch_carries_stored_data w cashfree_paid_poll "CMS_1" o).
  - vm_compute. reflexivity.
  - reflexivity.
  - apply lookup_singleton_eq.
Defined.

(** *** PayPal capture *)

Lemma capture_known_store env token (d : option PayPalCapture) (id : string)
    (o : gmap string Value) (st : gmap string (gmap string Value)) (tr : list Event) :
  String.eqb id "" = false →
  pendingPayments
    (exec (PayPalController.capturePayPalPayment env (Resolved token) (Resolved d) (Some id))
       {| pendingPayments := <[id := o]> st; trace := tr |}).2
  = <[id := <["updatedAt" := VString (now env)]>
               (<["paypalCaptureData" := match d with
                                         | Some c => VObject (BPayPalCapture c)
                                         | None => VUndefined
                                         end]>
                  (<["status" := VString "COMPLETED"]> o))]> st.
Proof.
  intros Hid. destruct env as [t m f], token.
  unfold PayPalController.capturePayPalPayment.
  destruct m, f; run; reflexivity.
Qed.

(** X11.  When the PayPal token request or the capture request fails,
    [capturePayPalPayment] answers 500, leaves [global.pendingPayments] as it
    was and dispatches nothing, whether or not the order is known. *)
Theorem paypal_capture_failure_leaves_store env token
    (capture : Outcome (option PayPalCapture)) (id : string) (w : World) :
  id ≠ "" →
  capture_answered token capture = false →
  let p := PayPalController.capturePayPalPayment env token capture (Some id) in
  code <$> answer p w = Some 500
  ∧ pendingPayments (exec p w).2 = pendingPayments w
  ∧ notifications (trace (exec p w).2) = notifications (trace w)
  ∧ archives (trace (exec p w).2) = archives (trace w).
Proof.
  intros Hid%String.eqb_neq Hans p. subst p. destruct w as [st tr].
  unfold PayPalController.capturePayPalPayment, answer.
  destruct token as [[]|e1], capture as [d|e2]; try discriminate Hans; run; count.
Qed.

Lemma paypal_capture_failure_leaves_store_witness :
  let p := PayPalController.capturePayPalPayment env_ok (Resolved tt) (Rejected provider_down)
             (Some "PAYPAL_3") in
  code <$> answer p paypal_world = Some 500
  ∧ pendingPayments (exec p paypal_world).2 = pendingPayments paypal_world
  ∧ notifications (trace (exec p paypal_world).2) = notifications (trace paypal_world)
  ∧ archives (trace (exec p paypal_world).2) = archives (trace paypal_world).
Proof.
  apply (paypal_capture_failure_leaves_store env_ok (Resolved tt) (Rejected provider_down)
           "PAYPAL_3" paypal_world).
  - discriminate.
  - reflexivity.
Defined.

(** X12.  For an order id absent from [global.pendingPayments], a capture
    response from which no payment object can be made (no response data, no
    [purchase_units], or a first unit whose [payments] has no [captures])
    makes [capturePayPalPayment] answer 500: nothing is stored and nothing is
    dispatched, although PayPal has captured the payment. *)
Theorem paypal_capture_unreadable_response env (d : option PayPalCapture) (id : string)
    (w : World) :
  id ≠ "" →
  known (pendingPayments w) id = false →
  capture_readable d = false →
  let p := PayPalController.capturePayPalPayment env (Resolved tt) (Resolved d) (Some id) in
  code <$> answer p w = Some 500
  ∧ pendingPayments (exec p w).2 = pendingPayments w
  ∧ provider_calls (trace (exec p w).2) = provider_calls (trace w) + 2
  ∧ notifications (trace (exec p w).2) = notifications (trace w)
  ∧ archives (trace (exec p w).2) = archives (trace w).
Proof.
  intros Hid%String.eqb_neq Hk Hread p. subst p. destruct w as [st tr].
  cbn [pendingPayments] in Hk.
  assert (st !! id = None) as Hst.
  { unfold known in Hk. destruct (st !! id); [discriminate | reflexivity]. }
  unfold PayPalController.capturePayPalPayment, answer.
  run. rewrite Hst. unfold PayPalController.paymentInfoFromCapture.
  unfold capture_readable in Hread.
  destruct d as [d|]; [|run; count].
  destruct (purchase_units d) as [units|]; [|run; count].
  destruct (PayPalController.first_capture_value (head units)); [discriminate Hread|].
  run. count.
Qed.

Lemma paypal_capture_unreadable_response_witness :
  let p := PayPalController.capturePayPalPayment env_ok (Resolved tt) (Resolved None)
             (Some "ORDER_9") in
  code <$> answer p empty_world = Some 500
  ∧ pendingPayments (exec p empty_world).2 = pendingPayments empty_world
  ∧ provider_calls (trace (exec p empty_world).2) = provider_calls (trace empty_world) + 2
  ∧ notifications (trace (exec p empty_world).2) = notifications (trace empty_world)
  ∧ archives (trace (exec p empty_world).2) = archives (trace empty_world).
Proof.
  apply (paypal_capture_unreadable_response env_ok None "ORDER_9" empty_world).
  - discriminate.
  - reflexivity.
  - reflexivity.
Defined.

(** *** One request, one transaction *)

Ltac unchanged := left; run; reflexivity.
Ltac replaced := run; right; eexists; reflexivity.

Lemma initiatePhonePePayment_shape env (id : string) pay (req : InitiationBody) (w : World) :
  let st' := pendingPayments (exec (PaymentController.initiatePhonePePayment env id pay req) w).2 in
  st' = pendingPayments w ∨ ∃ o, st' = <[id := o]> (pendingPayments w).
Proof.
  intros st'. subst st'. destruct w as [st tr]. cbn [pendingPayments].
  unfold PaymentController.initiatePhonePePayment, encodeURIComponent.
  destruct (negb (Js.truthy (number (amount req)))
            || negb (Js.truthy (Js.field (customerPhone req)))
            || negb (Js.truthy (Js.field (customerEmail req)))
            || negb (Js.truthy (Js.field (customerName req)))); [unchanged|].
  destruct (negb (Js.ten_digits (default "" (customerPhone req)))); [unchanged|].
  destruct (invalidAmount (amount req)); [unchanged|].
  destruct (Js.well_formed (Js.render (Js.field (customerName req)))); [|replaced].
  destruct pay as [[r|]|e]; run;
    [destruct (redirectUrl r) as [h|]; run; [destruct (String.eqb h "") eqn:Hh|]| |]; replaced.
Qed.

Lemma initiateCashfreePayment_shape env (id : string) createOrder (req : InitiationBody)
    (w : World) :
  let st' := pendingPayments
               (exec (PaymentController.initiateCashfreePayment env id createOrder req) w).2 in
  st' = pendingPayments w ∨ ∃ o, st' = <[id := o]> (pendingPayments w).
Proof.
  intros st'. subst st'. destruct w as [st tr]. cbn [pendingPayments].
  unfold PaymentController.initiateCashfreePayment, encodeURIComponent.
  destruct (negb (Js.truthy (number (amount req)))
            || negb (Js.truthy (Js.field (customerEmail req)))
            || negb (Js.truthy (Js.field (customerName req)))); [unchanged|].
  destruct (Js.well_formed (Js.render (Js.field (customerName req)))); [|unchanged].
  destruct createOrder as [[r|]|e]; run;
    [destruct (payment_session_id r) as [h|]; run; [destruct (String.eqb h "") eqn:Hh|]| |];
    replaced.
Qed.

Lemma capturePayPalPayment_shape env token capture (id : string) (w : World) :
  let st' := pendingPayments
               (exec (PayPalController.capturePayPalPayment env token capture (Some id)) w).2 in
  st' = pendingPayments w ∨ ∃ o, st' = <[id := o]> (pendingPayments w).
Proof.
  intros st'. subst st'. destruct w as [st tr]. cbn [pendingPayments].
  unfold PayPalController.capturePayPalPayment. cbn [Js.truthy].
  destruct (String.eqb id "") eqn:Hid; [unchanged|].
  destruct token as [[]|e1]; [|unchanged].
  destruct capture as [d|e2]; [|unchanged].
  destruct env as [t m f].
  destruct (st !! id) as [o|] eqn:Hst.
  - rewrite <- (insert_id st id o Hst).
    destruct m, f; run; right; eexists; symmetry; apply insert_insert_eq.
  - run. rewrite Hst. unfold PayPalController.paymentInfoFromCapture.
    destruct d as [d|]; [|unchanged].
    destruct (purchase_units d) as [units|]; [|unchanged].
    destruct (PayPalController.first_capture_value (head units)); [|unchanged].
    destruct m, f; run; right; eexists; reflexivity.
Qed.

Lemma initiatePayPalPayment_shape env token createOrder (req : InitiationBody) (w : World) :
  let st' := pendingPayments
               (exec (PayPalController.initiatePayPalPayment env token createOrder req) w).2 in
  st' = pendingPayments w
  ∨ ∃ order o, createOrder = Resolved order ∧ st' = <[paypal_id order := o]> (pendingPayments w).
Proof.
  intros st'. subst st'. destruct w as [st tr]. cbn [pendingPayments].
  unfold PayPalController.initiatePayPalPayment.
  destruct (negb (Js.truthy (number (amount req)))
            || negb (Js.truthy (Js.field (customerEmail req)))
            || negb (Js.truthy (Js.field (customerName req)))); [unchanged|].
  destruct token as [[]|e1]; [|unchanged].
  destruct createOrder as [order|e2]; [|unchanged].
  destruct order as [pid [link|]]; [|unchanged].
  right. do 2 eexists. split; [reflexivity|]. cbn [approve_link paypal_id]. run. reflexivity.
Qed.

Lemma deliver_shape (w : World) (s : Signal) :
  pendingPayments (deliver w s) = pendingPayments w
  ∨ ∃ id o, target s = Some id ∧ known (pendingPayments w) id = true
            ∧ pendingPayments (deliver w s) = <[id := o]> (pendingPayments w).
Proof.
  rewrite deliver_store. destruct (target s) as [id|]; [|by left].
  destruct (Js.truthy (VString id)); [|by left]. cbn [andb].
  destruct (known (pendingPayments w) id) eqn:Hknown; [|by left].
  destruct (known_Some _ _ Hknown) as [o Hst]. right. exists id. eexists.
  split; [reflexivity|]. split; [exact Hknown|].
  rewrite <- (insert_id (pendingPayments w) id o Hst) at 1.
  by rewrite alter_insert_eq.
Qed.

(** Every request writes at most one entry of [global.pendingPayments]: the
    one of the transaction id it is about. *)
Lemma serve_shape (r : Request) (w : World) :
  let st' := pendingPayments (exec (serve r) w).2 in
  st' = pendingPayments w
  ∨ ∃ id o, request_target r = Some id ∧ st' = <[id := o]> (pendingPayments w).
Proof.
  destruct r as [env id pay req | env id createOrder req | env token createOrder req
                 | env token capture [id|] | s]; cbv zeta; cbn [serve request_target].
  - destruct (initiatePhonePePayment_shape env id pay req w) as [->|[o ->]]; [by left|].
    right. by exists id, o.
  - destruct (initiateCashfreePayment_shape env id createOrder req w) as [->|[o ->]]; [by left|].
    right. by exists id, o.
  - destruct (initiatePayPalPayment_shape env token createOrder req w)
      as [->|(order & o & -> & ->)]; [by left|].
    right. by exists (paypal_id order), o.
  - destruct (capturePayPalPayment_shape env token capture id w) as [->|[o ->]]; [by left|].
    right. by exists id, o.
  - left. destruct w as [st tr]. unfold PayPalController.capturePayPalPayment. run. reflexivity.
  - fold (deliver w s).
    destruct (deliver_shape w s) as [->|(id & o & Ht & _ & ->)]; [by left|].
    right. by exists id, o.
Qed.

(** X13. Whatever request one of the exported handlers serves
    ([initiatePhonePePayment], [initiateCashfreePayment],
    [initiatePayPalPayment], [capturePayPalPayment], or one of the four
    status handlers), as long as [Object.prototype] is as Node made it and
    the id the request is about is not one of the names every object
    inherits from it, the entry of
    [global.pendingPayments] under any other id is what it was before. *)
Theorem request_touches_only_its_transaction (r : Request) (w : World) (other : string) :
  inherited_target (request_target r) = false →
  request_target r ≠ Some other →
  pendingPayments (exec (serve r) w).2 !! other = pendingPayments w !! other.
Proof.
  intros _ Hother.
  destruct (serve_shape r w) as [Hsame|(id & o & Ht & Hput)]; cbv zeta in *;
    [by rewrite Hsame|rewrite Hput].
  apply lookup_insert_ne. congruence.
Qed.

Lemma request_touches_only_its_transaction_witness :
  pendingPayments
    (exec (serve (InitiateCashfree env_ok "CMS_9" (Resolved None) order_500)) cashfree_world).2
    !! "CMS_1"
  = pendingPayments cashfree_world !! "CMS_1".
Proof.
  apply (request_touches_only_its_transaction
           (InitiateCashfree env_ok "CMS_9" (Resolved None) order_500) cashfree_world "CMS_1").
  - vm_compute. reflexivity.
  - discriminate.
Defined.

(** X14. No exported handler ever removes an entry of
    [global.pendingPayments]: every transaction id known before a request
    is known after it, whatever the request and its outcome. *)
Theorem no_request_removes_a_record (r : Request) (w : World) (id : string) :
  known (pendingPayments w) id = true →
  known (pendingPayments (exec (serve r) w).2) id = true.
Proof.
  intros Hknown.
  destruct (serve_shape r w) as [Hsame|(id' & o & Ht & Hput)]; cbv zeta in *;
    [by rewrite Hsame|rewrite Hput].
  unfold known in *. destruct (decide (id' = id)) as [->|Hne].
  - by rewrite lookup_insert_eq.
  - by rewrite lookup_insert_ne.
Qed.

Lemma no_request_removes_a_record_witness :
  known (pendingPayments
           (exec (serve (CapturePayPal env_ok (Resolved ()) (Rejected provider_down)
                           (Some "CMS_1"))) cashfree_world).2) "CMS_1" = true.
Proof.
  apply (no_request_removes_a_record
           (CapturePayPal env_ok (Resolved ()) (Rejected provider_down) (Some "CMS_1"))
           cashfree_world "CMS_1").
  reflexivity.
Defined.

(** ** The payment object made from a PayPal capture *)

Lemma joined_name_nonempty (a b : string) : String.eqb (a +:+ " " +:+ b) "" = false.
Proof. by destruct a. Qed.

(** X15. When [capturePayPalPayment] makes the payment object from the
    capture response (the order id is not in [global.pendingPayments]), the
    [customerName] it stores is always the payer's given name and surname
    joined by a space, each rendered as JavaScript renders it (so
    [undefined] when absent): the ['PayPal Customer'] alternative of the
    [||] is never taken.  The phone and the hosting plan are the fixed
    strings of the source. *)
Theorem paypal_fabricated_customer env (d : PayPalCapture) (id : string) (w : World) :
  id ≠ "" →
  known (pendingPayments w) id = false →
  capture_readable (Some d) = true →
  let w' := (exec (PayPalController.capturePayPalPayment env (Resolved tt) (Resolved (Some d))
                     (Some id)) w).2 in
  stored_prop w' id "customerName"
  = Some (VString (Js.render (Js.field (given_name d)) +:+ " "
                   +:+ Js.render (Js.field (surname d))))
  ∧ stored_prop w' id "customerPhone" = Some (VString "Not provided via PayPal")
  ∧ stored_prop w' id "hostingPlan" = Some (VString "Standard")
  ∧ stored_prop w' id "merchantTransactionId" = Some (VString id).
Proof.
  intros Hid Hk Hread w'. subst w'.
  assert (String.eqb id "" = false) as Hid' by (by apply String.eqb_neq).
  destruct w as [st tr]. cbn [pendingPayments] in Hk.
  assert (st !! id = None) as Hst.
  { unfold known in Hk. destruct (st !! id); [discriminate | reflexivity]. }
  unfold capture_readable in Hread.
  destruct (purchase_units d) as [units|] eqn:Hunits; [|discriminate].
  destruct (PayPalController.first_capture_value (head units)) as [value|] eqn:Hvalue;
    [|discriminate].
  destruct env as [t m f].
  unfold PayPalController.capturePayPalPayment, stored_prop.
  run. rewrite Hst. unfold PayPalController.paymentInfoFromCapture.
  rewrite Hunits, Hvalue. unfold Js.or at 1. cbn [Js.truthy].
  rewrite joined_name_nonempty. cbn [negb].
  destruct m, f; run;
    (split_and!;
     cbn [mbind option_bind Js.object list_to_map fold_right fst snd];
     repeat first [ rewrite lookup_insert_eq | rewrite lookup_insert_ne by discriminate ];
     reflexivity).
Qed.

Lemma paypal_fabricated_customer_witness :
  let w' := (exec (PayPalController.capturePayPalPayment env_ok (Resolved tt)
                     (Resolved (Some capture_completed)) (Some "PAYPAL_9")) empty_world).2 in
  stored_prop w' "PAYPAL_9" "customerName"
  = Some (VString (Js.render (Js.field (given_name capture_completed)) +:+ " "
                   +:+ Js.render (Js.field (surname capture_completed))))
  ∧ stored_prop w' "PAYPAL_9" "customerPhone" = Some (VString "Not provided via PayPal")
  ∧ stored_prop w' "PAYPAL_9" "hostingPlan" = Some (VString "Standard")
  ∧ stored_prop w' "PAYPAL_9" "merchantTransactionId" = Some (VString "PAYPAL_9").
Proof.
  apply (paypal_fabricated_customer env_ok capture_completed "PAYPAL_9" empty_world).
  - discriminate.
  - reflexivity.
  - reflexivity.
Defined.

(** ** The plan read back from the order description *)

Lemma has_dash_app (a b : string) : has_dash (a +:+ b) = has_dash a || has_dash b.
Proof.
  induction a as [|c a IH]; [reflexivity|].
  simpl. by rewrite IH, orb_assoc.
Qed.

Lemma until_dash_all (s : string) : has_dash s = false → PayPalController.until_dash s = s.
Proof.
  induction s as [|c s IH]; [reflexivity|].
  simpl. intros [Hc Hs]%orb_false_iff.
  by rewrite Hc, (IH Hs).
Qed.

Lemma description_mentions_store (req : InitiationBody) :
  PayPalController.includes (orderDescription req) "CraftMyStore" = true.
Proof. reflexivity. Qed.

Lemma description_second_segment (req : InitiationBody) :
  PayPalController.second_segment (orderDescription req)
  = Some (PayPalController.until_dash
            (" " +:+ Js.render (Js.field (ecommPlan req)) +:+ " + "
             +:+ Js.render (Js.field (hostingPlan req)))).
Proof. reflexivity. Qed.

(** X16. [initiatePayPalPayment] describes the order as
    [CraftMyStore - <ecommPlan> + <hostingPlan>]; [capturePayPalPayment]
    reads the plan back as [description.split('-')[1].trim()].  For a
    request whose two plan names hold no dash, what is read back from the
    description of its own order is not the e-commerce plan but both plan
    names joined by [ + ], and the hosting plan is recorded as [Standard]
    whatever it was. *)
Theorem paypal_plan_read_back env (req : InitiationBody) given family email unit_payments more
    (id : string) (w : World) :
  has_dash (Js.render (Js.field (ecommPlan req))) = false →
  has_dash (Js.render (Js.field (hostingPlan req))) = false →
  id ≠ "" →
  known (pendingPayments w) id = false →
  capture_readable (Some (capture_of_order req given family email unit_payments more)) = true →
  let d := capture_of_order req given family email unit_payments more in
  let w' := (exec (PayPalController.capturePayPalPayment env (Resolved tt) (Resolved (Some d))
                     (Some id)) w).2 in
  stored_prop w' id "ecommPlan"
  = Some (VString (PayPalController.trim
                     (" " +:+ Js.render (Js.field (ecommPlan req)) +:+ " + "
                      +:+ Js.render (Js.field (hostingPlan req)))))
  ∧ stored_prop w' id "hostingPlan" = Some (VString "Standard").
Proof.
  intros He Hh Hid Hk Hread d w'. subst w' d.
  assert (String.eqb id "" = false) as Hid' by (by apply String.eqb_neq).
  destruct w as [st tr]. cbn [pendingPayments] in Hk.
  assert (st !! id = None) as Hst.
  { unfold known in Hk. destruct (st !! id); [discriminate | reflexivity]. }
  unfold capture_readable in Hread. cbn [capture_of_order purchase_units head] in Hread.
  destruct (PayPalController.first_capture_value _) as [value|] eqn:Hvalue; [|discriminate].
  destruct env as [t m f].
  unfold PayPalController.capturePayPalPayment, stored_prop.
  run. rewrite Hst. unfold PayPalController.paymentInfoFromCapture.
  cbn [capture_of_order purchase_units head]. rewrite Hvalue.
  unfold PayPalController.plan_of_description.
  cbn [mbind option_bind description].
  rewrite description_mentions_store, description_second_segment.
  rewrite until_dash_all
    by (rewrite !has_dash_app, He, Hh; reflexivity).
  cbn [fmap option_fmap option_map Js.field].
  destruct m, f; run;
    (split_and!;
     cbn [mbind option_bind Js.object list_to_map fold_right fst snd];
     repeat first [ rewrite lookup_insert_eq | rewrite lookup_insert_ne by discriminate ];
     reflexivity).
Qed.

Lemma paypal_plan_read_back_witness :
  let d := capture_of_order order_500 (Some "Asha") (Some "Rao") None None [] in
  let w' := (exec (PayPalController.capturePayPalPayment env_ok (Resolved tt)
                     (Resolved (Some d)) (Some "PAYPAL_9")) empty_world).2 in
  stored_prop w' "PAYPAL_9" "ecommPlan"
  = Some (VString (PayPalController.trim
                     (" " +:+ Js.render (Js.field (ecommPlan order_500)) +:+ " + "
                      +:+ Js.render (Js.field (hostingPlan order_500)))))
  ∧ stored_prop w' "PAYPAL_9" "hostingPlan" = Some (VString "Standard").
Proof.
  apply (paypal_plan_read_back env_ok order_500 (Some "Asha") (Some "Rao") None None []
           "PAYPAL_9" empty_world).
  - reflexivity.
  - reflexivity.
  - discriminate.
  - reflexivity.
  - reflexivity.
Defined.

(** ** A provider that answers without an order *)

(** X17. A status query that the provider answers with nothing, for a
    known transaction: [verifyPhonePePayment] has by then written
    [status = 'UNKNOWN'] and [paymentDetails = null] into the payment
    object, and the read of [statusResponse.paymentDetails] in the failure
    branch then throws; [verifyCashfreePayment] throws on
    [response.data.order_status] before any write.  Both answer 500 with
    [status: 'FAILED'], and neither sends mail nor archives. *)
Theorem provider_answers_nothing env (id : string) (w : World) :
  id ≠ "" →
  known (pendingPayments w) id = true →
  let phonepe := PaymentController.verifyPhonePePayment env (Resolved None) id in
  let cashfree := PaymentController.verifyCashfreePayment env (Resolved None) id in
  (code <$> answer phonepe w = Some 500
   ∧ answer_field phonepe w "status" = Some (VString "FAILED")
   ∧ stored_status (exec phonepe w).2 id = Some (VString "UNKNOWN")
   ∧ stored_prop (exec phonepe w).2 id "paymentDetails" = Some VNull
   ∧ notifications (trace (exec phonepe w).2) = notifications (trace w)
   ∧ archives (trace (exec phonepe w).2) = archives (trace w))
  ∧ (code <$> answer cashfree w = Some 500
     ∧ answer_field cashfree w "status" = Some (VString "FAILED")
     ∧ pendingPayments (exec cashfree w).2 = pendingPayments w
     ∧ notifications (trace (exec cashfree w).2) = notifications (trace w)
     ∧ archives (trace (exec cashfree w).2) = archives (trace w)).
Proof.
  intros Hid Hk phonepe cashfree. subst phonepe cashfree.
  assert (String.eqb id "" = false) as Hid' by (by apply String.eqb_neq).
  known_world w Hk. destruct env as [t m f].
  unfold PaymentController.verifyPhonePePayment, PaymentController.verifyCashfreePayment.
  split.
  - split_and!.
    + unfold answer. run. reflexivity.
    + read_field.
    + run. status_lookup.
    + run. prop_lookup.
    + run. count.
    + run. count.
  - split_and!.
    + unfold answer. run. reflexivity.
    + read_field.
    + run. reflexivity.
    + run. count.
    + run. count.
Qed.

Lemma provider_answers_nothing_witness :
  let phonepe := PaymentController.verifyPhonePePayment env_ok (Resolved None) "CMS_2" in
  let cashfree := PaymentController.verifyCashfreePayment env_ok (Resolved None) "CMS_2" in
  (code <$> answer phonepe phonepe_world = Some 500
   ∧ answer_field phonepe phonepe_world "status" = Some (VString "FAILED")
   ∧ stored_status (exec phonepe phonepe_world).2 "CMS_2" = Some (VString "UNKNOWN")
   ∧ stored_prop (exec phonepe phonepe_world).2 "CMS_2" "paymentDetails" = Some VNull
   ∧ notifications (trace (exec phonepe phonepe_world).2) = notifications (trace phonepe_world)
   ∧ archives (trace (exec phonepe phonepe_world).2) = archives (trace phonepe_world))
  ∧ (code <$> answer cashfree phonepe_world = Some 500
     ∧ answer_field cashfree phonepe_world "status" = Some (VString "FAILED")
     ∧ pendingPayments (exec cashfree phonepe_world).2 = pendingPayments phonepe_world
     ∧ notifications (trace (exec cashfree phonepe_world).2)
       = notifications (trace phonepe_world)
     ∧ archives (trace (exec cashfree phonepe_world).2) = archives (trace phonepe_world)).
Proof.
  apply (provider_answers_nothing env_ok "CMS_2" phonepe_world).
  - discriminate.
  - reflexivity.
Defined.

(** ** What the provider is told about a pushed signal *)



